(** * PrestoQueryRunner: the reference-query bridge of the Velox fuzzer

    A shallow embedding of velox/exec/fuzzer/PrestoQueryRunner.cpp:
    the plan-to-SQL compiler ([toSql]), the two support predicates
    ([isConstantExprSupported], [isSupported]), the statement protocol
    client ([execute], [startQuery], [fetchNext], [ServerResponse]) and the
    orchestration ([createTable], [executeAndReturnVector], [execute_plan]).

    C++ exceptions are an explicit outcome; the HTTP endpoint and the file
    system are an environment the code talks to, and everything the code does
    to them is recorded in a trace. *)

From Stdlib Require Import ZArith Ascii String List Bool Lia.
From stdpp Require Import base option list strings pretty gmap.

Set Default Proof Using "Type".
Set Warnings "-register-all".
Local Open Scope Z_scope.

(* ================================================================= *)
(** ** Exceptions and outcomes *)

(** The error codes of the Velox exception macros that the file uses:
    [VELOX_CHECK], [VELOX_CHECK_EQ], [VELOX_CHECK_GT] and [VELOX_FAIL] raise
    a [VeloxRuntimeError] with code INVALID_STATE, [VELOX_NYI] one with code
    NOT_IMPLEMENTED. *)
Inductive ErrorCode := INVALID_STATE | NOT_IMPLEMENTED.

(** What a C++ [throw] carries.  [OtherException] stands for every exception
    type that is not a [VeloxRuntimeError] nor a [VeloxUserError]:
    [std::out_of_range] from [at], the JSON parser's error, and the like. *)
Inductive Exn :=
| VeloxRuntimeError (code : ErrorCode) (message : string)
| VeloxUserError (message : string)
| OtherException (what : string).

(** Why a computation has no C++-defined result: an out-of-bounds
    [operator[]] on a [std::vector], or the poll loop of the model running
    out of the fuel it was given. *)
Inductive StuckReason := UndefinedBehaviour | OutOfFuel.

Inductive Outcome (A : Type) :=
| Ok (a : A)
| Raise (e : Exn)
| Stuck (why : StuckReason).
Arguments Ok {A} a.
Arguments Raise {A} e.
Arguments Stuck {A} why.

Definition outcome_bind {A B} (f : A -> Outcome B) (m : Outcome A) : Outcome B :=
  match m with
  | Ok a => f a
  | Raise e => Raise e
  | Stuck w => Stuck w
  end.

#[global] Instance outcome_mret : MRet Outcome := @Ok.
#[global] Instance outcome_mbind : MBind Outcome := @outcome_bind.

(** [VELOX_NYI()] *)
Definition VELOX_NYI {A} : Outcome A := Raise (VeloxRuntimeError NOT_IMPLEMENTED "").

(** [VELOX_CHECK(cond, message)]; a check written without a message throws
    with an empty one. *)
Definition VELOX_CHECK (cond : bool) (message : string) : Outcome unit :=
  if cond then Ok tt else Raise (VeloxRuntimeError INVALID_STATE message).

(** [VELOX_FAIL(message)] *)
Definition VELOX_FAIL {A} (message : string) : Outcome A :=
  Raise (VeloxRuntimeError INVALID_STATE message).

(** [forEach f l]: run [f] on the elements of [l] from left to right and
    stop at the first one that does not return, as a C++ [for] loop whose
    body may throw. *)
Fixpoint forEach {A B} (f : A -> Outcome B) (l : list A) : Outcome (list B) :=
  match l with
  | [] => Ok []
  | x :: l' =>
      match f x with
      | Ok y =>
          match forEach f l' with
          | Ok ys => Ok (y :: ys)
          | Raise e => Raise e
          | Stuck w => Stuck w
          end
      | Raise e => Raise e
      | Stuck w => Stuck w
      end
  end.

(** The elements of a vector with their indices, for the loops
    [for (i = 0; i < v.size(); ++i)]. *)
Definition indexed {A} (l : list A) : list (nat * A) := imap pair l.

(** [v[i]] on a [std::vector]: undefined out of range. *)
Definition vectorAt {A} (v : list A) (i : nat) : Outcome A :=
  match v !! i with
  | Some x => Ok x
  | None => Stuck UndefinedBehaviour
  end.

(* ================================================================= *)
(** ** Strings *)

(** [folly::toLowerAscii] on one character. *)
Definition toLowerAsciiChar (c : ascii) : ascii :=
  let n := N_of_ascii c in
  if ((65 <=? n) && (n <=? 90))%N then ascii_of_N (n + 32) else c.

Fixpoint toLowerAscii (s : string) : string :=
  match s with
  | EmptyString => EmptyString
  | String c s' => String (toLowerAsciiChar c) (toLowerAscii s')
  end.

(** [hay.find(needle) != std::string::npos] *)
Fixpoint contains (needle hay : string) : bool :=
  String.prefix needle hay ||
  match hay with
  | EmptyString => false
  | String _ hay' => contains needle hay'
  end.

(** [folly::join(sep, parts)] *)
Fixpoint join (sep : string) (parts : list string) : string :=
  match parts with
  | [] => ""
  | [p] => p
  | p :: rest => p +:+ sep +:+ join sep rest
  end.

(** Modelled from the spec: [appendComma(i, sql)] is declared in
    PrestoSql.h, outside PrestoQueryRunner.cpp; it separates the items of the
    comma-separated lists the spec shows ([SELECT <expr AS name>, ...]):
    nothing before the first item, [", "] before every later one. *)
Definition appendComma (i : nat) : string :=
  if (0 <? i)%nat then ", " else "".

(** A loop [for (i = 0; i < items.size(); ++i) { appendComma(i, sql);
    sql << item(i); }] over items already rendered. *)
Definition commaSeparated (items : list string) : string :=
  String.concat "" (imap (fun i s => appendComma i +:+ s) items).

(* ================================================================= *)
(** ** Types *)

Inductive TypeKind :=
| BOOLEAN | TINYINT | SMALLINT | INTEGER | BIGINT | REAL | DOUBLE
| VARCHAR | VARBINARY | TIMESTAMP | HUGEINT
| ARRAY | MAP | ROW | UNKNOWN | FUNCTION | OPAQUE | INVALID.

(** Modelled from the spec: [Type] is declared in velox/type/Type.h, outside
    PrestoQueryRunner.cpp.  A type has a kind, the name of the custom
    (logical) type when it is one (JSON is a custom type over VARCHAR,
    IPADDRESS and UUID over HUGEINT, IPPREFIX over ROW, INTERVAL DAY TO
    SECOND over BIGINT), and, for a complex type, its children with their
    names (names only for ROW). *)
Inductive VType :=
  mkType { kind : TypeKind;
           customName : option string;
           childNames : list string;
           children : list VType }.

Definition scalarType (k : TypeKind) : VType := mkType k None [] [].
Definition customType (k : TypeKind) (name : string) (cs : list VType) : VType :=
  mkType k (Some name) [] cs.

Definition INTEGER_ : VType := scalarType INTEGER.
Definition BIGINT_ : VType := scalarType BIGINT.
Definition DOUBLE_ : VType := scalarType DOUBLE.
Definition VARCHAR_ : VType := scalarType VARCHAR.
Definition TIMESTAMP_ : VType := scalarType TIMESTAMP.
Definition JSON_ : VType := customType VARCHAR "JSON" [].
Definition IPADDRESS_ : VType := customType HUGEINT "IPADDRESS" [].
Definition UUID_ : VType := customType HUGEINT "UUID" [].
Definition IPPREFIX_ : VType :=
  customType ROW "IPPREFIX" [scalarType HUGEINT; scalarType TINYINT].
Definition INTERVAL_DAY_TIME_ : VType := customType BIGINT "INTERVAL DAY TO SECOND" [].
Definition ROW_ (fields : list (string * VType)) : VType :=
  mkType ROW None (fields.*1) (fields.*2).

(** Modelled from the spec: [Type::isPrimitiveType] is declared in
    velox/type/Type.h; a type is primitive when its kind is a scalar kind
    (the spec sets the primitive types against the complex ones). *)
Definition isPrimitiveType (t : VType) : bool :=
  match kind t with
  | ARRAY | MAP | ROW | FUNCTION | OPAQUE | INVALID => false
  | _ => true
  end.

(** Modelled from the spec: [Type::isTimestamp] is declared in
    velox/type/Type.h; it tests the kind of the type. *)
Definition isTimestamp (t : VType) : bool :=
  match kind t with TIMESTAMP => true | _ => false end.

(** A custom type is recognised by the name it is registered under. *)
Definition hasCustomName (name : string) (t : VType) : bool :=
  match customName t with
  | Some n => String.eqb n name
  | None => false
  end.

(** Modelled from the spec: [isJsonType] is declared in
    velox/functions/prestosql/types/JsonType.h; it holds of the JSON type. *)
Definition isJsonType : VType -> bool := hasCustomName "JSON".

(** Modelled from the spec: [isIPAddressType] is declared in
    velox/functions/prestosql/types/IPAddressType.h; it holds of the
    IP-address type. *)
Definition isIPAddressType : VType -> bool := hasCustomName "IPADDRESS".

(** Modelled from the spec: [isIPPrefixType] is declared in
    velox/functions/prestosql/types/IPPrefixType.h; it holds of the
    IP-prefix type. *)
Definition isIPPrefixType : VType -> bool := hasCustomName "IPPREFIX".

(** Modelled from the spec: [isUuidType] is declared in
    velox/functions/prestosql/types/UuidType.h; it holds of the UUID type. *)
Definition isUuidType : VType -> bool := hasCustomName "UUID".

(** Modelled from the spec: [Type::isIntervalDayTime] is declared in
    velox/type/Type.h; it holds of the day-time interval type. *)
Definition isIntervalDayTime : VType -> bool := hasCustomName "INTERVAL DAY TO SECOND".

(** Modelled from the spec: [RowType::size()] is declared in
    velox/type/Type.h; the number of children. *)
Definition size (t : VType) : nat := length (children t).

(** Modelled from the spec: [RowType::nameOf(idx)] is declared in
    velox/type/Type.h; the column name at the index, which is a [uint32_t]
    and is checked against the number of names. *)
Definition nameOf (t : VType) (idx : Z) : Outcome string :=
  match childNames t !! Z.to_nat (idx mod 2 ^ 32) with
  | Some n => Ok n
  | None => Raise (VeloxRuntimeError INVALID_STATE "nameOf: index out of range")
  end.

(* ================================================================= *)
(** ** Typed expressions *)

(** [velox::variant]: a cell of a materialized row. *)
Inductive variant :=
| VNull
| VBool (b : bool)
| VInt (z : Z)
| VString (s : string).

(** [core::ITypedExpr] and the subclasses [toSql] casts to.
    [OtherTypedExpr] is every other subclass ([InputTypedExpr],
    [DereferenceTypedExpr], [LambdaTypedExpr], ...). *)
Inductive TypedExpr :=
| FieldAccessTypedExpr (type : VType) (name : string) (inputs : list TypedExpr)
| CallTypedExpr (type : VType) (name : string) (inputs : list TypedExpr)
| CastTypedExpr (type : VType) (inputs : list TypedExpr) (nullOnFailure : bool)
| ConcatTypedExpr (type : VType) (inputs : list TypedExpr)
| ConstantTypedExpr (type : VType) (value : variant)
| OtherTypedExpr (type : VType) (inputs : list TypedExpr).

(** [expr->type()] *)
Definition exprType (e : TypedExpr) : VType :=
  match e with
  | FieldAccessTypedExpr t _ _ | CallTypedExpr t _ _ | CastTypedExpr t _ _
  | ConcatTypedExpr t _ | ConstantTypedExpr t _ | OtherTypedExpr t _ => t
  end.

(** [call->name()] and [call->inputs()] of a [CallTypedExprPtr]. *)
Definition exprName (e : TypedExpr) : string :=
  match e with
  | FieldAccessTypedExpr _ n _ | CallTypedExpr _ n _ => n
  | _ => ""
  end.

Definition exprInputs (e : TypedExpr) : list TypedExpr :=
  match e with
  | FieldAccessTypedExpr _ _ l | CallTypedExpr _ _ l | CastTypedExpr _ l _
  | ConcatTypedExpr _ l | OtherTypedExpr _ l => l
  | ConstantTypedExpr _ _ => []
  end.

(** [PrestoQueryRunner::isConstantExprSupported] *)
Definition isConstantExprSupported (expr : TypedExpr) : bool :=
  match expr with
  | ConstantTypedExpr type _ =>
      isPrimitiveType type && negb (isTimestamp type) &&
      negb (isJsonType type) && negb (isIntervalDayTime type) &&
      negb (isIPAddressType type) && negb (isIPPrefixType type) &&
      negb (isUuidType type)
  | _ => true
  end.

(* ================================================================= *)
(** ** Function signatures *)

(** [exec::TypeSignature]: a base name and its type parameters. *)
Inductive TypeSignature :=
  mkTypeSignature { baseName : string; parameters : list TypeSignature }.

(** [exec::FunctionSignature], the two parts [isSupported] looks at. *)
Record FunctionSignature := mkFunctionSignature {
  returnType : TypeSignature;
  argumentTypes : list TypeSignature }.

(** Modelled from the spec: the test behind [usesTypeName] and
    [usesInputTypeName], which are declared in FuzzerUtil.h, outside
    PrestoQueryRunner.cpp.  A type signature uses a type name when the name
    matches its base name or that of a parameter at any nesting depth,
    letter case ignored. *)
Fixpoint containTypeName (type : TypeSignature) (typeName : string) : bool :=
  match type with
  | mkTypeSignature base params =>
      String.eqb (toLowerAscii base) (toLowerAscii typeName) ||
      existsb (fun p => containTypeName p typeName) params
  end.

(** Modelled from the spec: [usesInputTypeName] is declared in FuzzerUtil.h;
    as its name says, it looks for the type name in the input (argument)
    types of the signature. *)
Definition usesInputTypeName (signature : FunctionSignature) (typeName : string) : bool :=
  existsb (fun a => containTypeName a typeName) (argumentTypes signature).

(** Modelled from the spec: [usesTypeName] is declared in FuzzerUtil.h; it
    looks for the type name in the input types and in the return type of the
    signature. *)
Definition usesTypeName (signature : FunctionSignature) (typeName : string) : bool :=
  containTypeName (returnType signature) typeName ||
  usesInputTypeName signature typeName.

(** [PrestoQueryRunner::isSupported] *)
Definition isSupported (signature : FunctionSignature) : bool :=
  negb (
      usesTypeName signature "bingtile" ||
      usesTypeName signature "interval year to month" ||
      usesTypeName signature "hugeint" ||
      usesTypeName signature "hyperloglog" ||
      usesTypeName signature "tdigest" ||
      usesInputTypeName signature "json" ||
      usesInputTypeName signature "ipaddress" ||
      usesInputTypeName signature "ipprefix" ||
      usesInputTypeName signature "uuid").

(* ================================================================= *)
(** ** Plan nodes *)

(** [core::SortOrder] *)
Record SortOrder := mkSortOrder { isAscending : bool; isNullsFirst : bool }.

(** [core::AggregationNode::Step] *)
Inductive Step := kPartial | kFinal | kIntermediate | kSingle.

Definition Step_eqb (a b : Step) : bool :=
  match a, b with
  | kPartial, kPartial | kFinal, kFinal
  | kIntermediate, kIntermediate | kSingle, kSingle => true
  | _, _ => false
  end.

(** [core::AggregationNode::Aggregate].  [mask] and the sorting keys are
    [FieldAccessTypedExprPtr]s of which only [name()] is read: they are kept
    as names, [None] for a null mask. *)
Record Aggregate := mkAggregate {
  call : TypedExpr;
  mask : option string;
  aggSortingKeys : list string;
  aggSortingOrders : list SortOrder;
  distinct : bool }.

(** [core::WindowNode::Function], the two members [toSql] reads. *)
Record WindowFunction := mkWindowFunction {
  functionCall : TypedExpr;
  ignoreNulls : bool }.

(** [connector::hive::HiveColumnHandle] *)
Record HiveColumnHandle := mkHiveColumnHandle {
  columnName : string;
  isPartitionKey : bool }.

(** [connector::hive::HiveSortingColumn] *)
Record HiveSortingColumn := mkHiveSortingColumn {
  sortColumn : string;
  sortOrder : SortOrder }.

(** [connector::hive::HiveBucketProperty] *)
Record HiveBucketProperty := mkHiveBucketProperty {
  bucketCount : Z;
  bucketedBy : list string;
  sortedBy : list HiveSortingColumn }.

(** [connector::hive::HiveInsertTableHandle]; [bucketProperty] is a pointer
    that may be null. *)
Record HiveInsertTableHandle := mkHiveInsertTableHandle {
  inputColumns : list HiveColumnHandle;
  bucketProperty : option HiveBucketProperty }.

(** Modelled from the spec: [HiveInsertTableHandle::isPartitioned] is
    declared in velox/connectors/hive/HiveDataSink.h; the table is
    partitioned when the handle has a partition-key column (the partition
    metadata is read from the connector's insert-table handle). *)
Definition isPartitioned (h : HiveInsertTableHandle) : bool :=
  existsb isPartitionKey (inputColumns h).

(** [RowVector]: a batch of rows of one row type. *)
Record RowVector := mkRowVector {
  rvType : VType;
  rvRows : list (list variant) }.

(** [core::PlanNode] and the ten subclasses [toSql] casts to, each with the
    members the file reads.  Every node stores its output type.  Keys are
    [FieldAccessTypedExprPtr]s of which only [name()] is read.  For
    [TableWriteNode], [insertTableHandle] is the result of the cast of the
    connector handle to [HiveInsertTableHandle]: [None] when the cast
    yields null.  [OtherNode] is every other subclass (FilterNode,
    OrderByNode, LimitNode, ...). *)
Inductive PlanNode :=
| ProjectNode (id : string) (outputType : VType)
    (names : list string) (projections : list TypedExpr) (source : PlanNode)
| WindowNode (id : string) (outputType : VType)
    (partitionKeys sortingKeys : list string) (sortingOrders : list SortOrder)
    (windowFunctions : list WindowFunction) (source : PlanNode)
| AggregationNode (id : string) (outputType : VType)
    (step : Step) (groupingKeys aggregateNames : list string)
    (aggregates : list Aggregate) (source : PlanNode)
| RowNumberNode (id : string) (outputType : VType)
    (partitionKeys : list string) (source : PlanNode)
| TopNRowNumberNode (id : string) (outputType : VType)
    (partitionKeys sortingKeys : list string) (sortingOrders : list SortOrder)
    (limit : Z) (generateRowNumber : bool) (source : PlanNode)
| TableWriteNode (id : string) (outputType : VType)
    (columnNames : list string) (insertTableHandle : option HiveInsertTableHandle)
    (source : PlanNode)
| HashJoinNode (id : string) (outputType : VType) (probe build : PlanNode)
| NestedLoopJoinNode (id : string) (outputType : VType) (probe build : PlanNode)
| ValuesNode (id : string) (outputType : VType) (values : list RowVector)
| TableScanNode (id : string) (outputType : VType) (tableName : string)
| OtherNode (id : string) (outputType : VType) (sources : list PlanNode).

(** [plan->outputType()] *)
Definition outputTypeOf (plan : PlanNode) : VType :=
  match plan with
  | ProjectNode _ t _ _ _ | WindowNode _ t _ _ _ _ _
  | AggregationNode _ t _ _ _ _ _ | RowNumberNode _ t _ _
  | TopNRowNumberNode _ t _ _ _ _ _ _ | TableWriteNode _ t _ _ _
  | HashJoinNode _ t _ _ | NestedLoopJoinNode _ t _ _
  | ValuesNode _ t _ | TableScanNode _ t _ | OtherNode _ t _ => t
  end.

(** [QueryRunnerContext::windowFrames_]: plan node id to the frame clause of
    each of the node's window functions. *)
Record QueryRunnerContext := mkQueryRunnerContext {
  windowFrames_ : gmap string (list string) }.

(** What PrestoQueryRunner.cpp calls and does not define: the helpers of
    PrestoSql.h and FuzzerUtil.h, the [toSql] overloads that
    [PrestoQueryRunner] inherits for the join, Values and TableScan nodes
    (each is given its node and the SQL of the node's sources), the result
    codec, and the helpers of the table materializer.  Nothing is assumed of
    them; each may throw. *)
Class Collaborators := {
  isSupportedDwrfType : VType -> bool;
  toCallSql : TypedExpr -> Outcome string;
  toCastSql : TypedExpr -> Outcome string;
  toConcatSql : TypedExpr -> Outcome string;
  toConstantSql : TypedExpr -> Outcome string;
  toCallInputsSql : list TypedExpr -> Outcome string;
  toAggregateCallSql :
    TypedExpr -> list string -> list SortOrder -> bool -> Outcome string;
  sortOrderToString : SortOrder -> string;
  toTypeSql : VType -> Outcome string;
  toSqlHashJoin :
    PlanNode -> Outcome (option string) -> Outcome (option string) ->
    Outcome (option string);
  toSqlNestedLoopJoin :
    PlanNode -> Outcome (option string) -> Outcome (option string) ->
    Outcome (option string);
  toSqlValues : PlanNode -> Outcome (option string);
  toSqlTableScan : PlanNode -> Outcome (option string);
  parseType : string -> Outcome VType;
  base64Decode : string -> Outcome string;
  deserialize : VType -> string -> Outcome RowVector;
  getAllTables : PlanNode -> Outcome (list (string * list RowVector));
  makeNullRows : list RowVector -> string -> Outcome RowVector;
  extractSingleValue : list RowVector -> Outcome string;
  parentPath : string -> string;
  pathAppend : string -> string -> string;
  materialize : list RowVector -> Outcome (list (list variant)) }.

(* ================================================================= *)
(** ** The compiler: plan to SQL *)

Section Compiler.
Context {collaborators : Collaborators}.
Variable queryRunnerContext_ : QueryRunnerContext.

Definition nonEmpty {A} (l : list A) : bool :=
  match l with [] => false | _ => true end.

(** The loop over [inputType->nameOf(i)] that [toSql] runs for the Window,
    RowNumber and TopNRowNumber nodes. *)
Definition inputColumnsSql (inputType : VType) : Outcome string :=
  cols ← forEach (fun i => nameOf inputType (Z.of_nat i)) (seq 0 (size inputType));
  Ok (commaSeparated cols).

(** The loop over [sortingKeys[j]->name() << " " <<
    sortingOrders[j].toString()]. *)
Definition sortingSql (sortingKeys : list string) (sortingOrders : list SortOrder)
  : Outcome string :=
  items ← forEach (fun '(j, key) =>
             order ← vectorAt sortingOrders j;
             Ok (appendComma j +:+ key +:+ " " +:+ sortOrderToString order))
           (indexed sortingKeys);
  Ok (String.concat "" items).

(** [toWindowCallSql] *)
Definition toWindowCallSql (call : TypedExpr) (ignoreNulls : bool) : Outcome string :=
  inputs ← toCallInputsSql (exprInputs call);
  Ok (exprName call +:+ "(" +:+ inputs +:+ ")" +:+
      (if ignoreNulls then " IGNORE NULLS" else "")).

(** [toSql(AggregationNode)] *)
Definition toSqlAggregation (step : Step) (groupingKeys aggregateNames : list string)
    (aggregates : list Aggregate) (source : PlanNode)
    (sourceSql : Outcome (option string)) : Outcome (option string) :=
  _ ← VELOX_CHECK (Step_eqb step kSingle) "";
  if negb (isSupportedDwrfType (outputTypeOf source)) then Ok None else
  let select := "SELECT " +:+ join ", " groupingKeys in
  aggs ← (if nonEmpty aggregates then
            items ← forEach (fun '(i, aggregate) =>
                       callSql ← toAggregateCallSql (call aggregate)
                                   (aggSortingKeys aggregate)
                                   (aggSortingOrders aggregate)
                                   (distinct aggregate);
                       let filter :=
                         match mask aggregate with
                         | Some m => " filter (where " +:+ m +:+ ")"
                         | None => ""
                         end in
                       name ← vectorAt aggregateNames i;
                       Ok (appendComma i +:+ callSql +:+ filter +:+ " as " +:+ name))
                     (indexed aggregates);
            Ok ((if nonEmpty groupingKeys then ", " else "") +:+ String.concat "" items)
          else Ok "");
  src ← sourceSql;
  match src with
  | None => Ok None
  | Some s =>
      Ok (Some (select +:+ aggs +:+ " FROM " +:+ s +:+
                (if nonEmpty groupingKeys
                 then " GROUP BY " +:+ join ", " groupingKeys else "")))
  end.

(** The cascade of casts on one projection in [toSql(ProjectNode)]. *)
Definition projectionSql (projection : TypedExpr) : Outcome string :=
  match projection with
  | FieldAccessTypedExpr _ name _ => Ok name
  | CallTypedExpr _ _ _ => toCallSql projection
  | CastTypedExpr _ _ _ => toCastSql projection
  | ConcatTypedExpr _ _ => toConcatSql projection
  | ConstantTypedExpr _ _ => toConstantSql projection
  | OtherTypedExpr _ _ => VELOX_NYI
  end.

(** [toSql(ProjectNode)] *)
Definition toSqlProject (names : list string) (projections : list TypedExpr)
    (sourceSql : Outcome (option string)) : Outcome (option string) :=
  src ← sourceSql;
  match src with
  | None => Ok None
  | Some s =>
      items ← forEach (fun '(i, name) =>
                 projection ← vectorAt projections i;
                 e ← projectionSql projection;
                 Ok (appendComma i +:+ e +:+ " as " +:+ name))
               (indexed names);
      Ok (Some ("SELECT " +:+ String.concat "" items +:+ " FROM (" +:+ s +:+ ")"))
  end.

(** [queryRunnerContext_->windowFrames_.at(id).at(i)]: both [at] throw
    [std::out_of_range] on a miss. *)
Definition windowFrame (id : string) (i : nat) : Outcome string :=
  match windowFrames_ queryRunnerContext_ !! id with
  | Some frames =>
      match frames !! i with
      | Some f => Ok f
      | None => Raise (OtherException "std::out_of_range")
      end
  | None => Raise (OtherException "std::out_of_range")
  end.

(** [toSql(WindowNode)] *)
Definition toSqlWindow (id : string) (partitionKeys sortingKeys : list string)
    (sortingOrders : list SortOrder) (functions : list WindowFunction)
    (source : PlanNode) (sourceSql : Outcome (option string))
  : Outcome (option string) :=
  let inputType := outputTypeOf source in
  if negb (isSupportedDwrfType inputType) then Ok None else
  cols ← inputColumnsSql inputType;
  fns ← forEach (fun '(i, f) =>
           callSql ← toWindowCallSql (functionCall f) (ignoreNulls f);
           let partition :=
             if nonEmpty partitionKeys
             then "PARTITION BY " +:+ commaSeparated partitionKeys else "" in
           order ← (if nonEmpty sortingKeys
                    then o ← sortingSql sortingKeys sortingOrders;
                         Ok (" ORDER BY " +:+ o)
                    else Ok "");
           frame ← windowFrame id i;
           Ok (appendComma i +:+ callSql +:+ " OVER (" +:+ partition +:+ order +:+
               " " +:+ frame +:+ ")"))
         (indexed functions);
  src ← sourceSql;
  match src with
  | None => Ok None
  | Some s =>
      Ok (Some ("SELECT " +:+ cols +:+ ", " +:+ String.concat "" fns +:+
                " FROM " +:+ s))
  end.

(** [toSql(RowNumberNode)] *)
Definition toSqlRowNumber (partitionKeys : list string) (source : PlanNode)
    (sourceSql : Outcome (option string)) : Outcome (option string) :=
  let inputType := outputTypeOf source in
  if negb (isSupportedDwrfType inputType) then Ok None else
  cols ← inputColumnsSql inputType;
  let partition :=
    if nonEmpty partitionKeys
    then "partition by " +:+ commaSeparated partitionKeys else "" in
  src ← sourceSql;
  match src with
  | None => Ok None
  | Some s =>
      Ok (Some ("SELECT " +:+ cols +:+ ", row_number() OVER (" +:+ partition +:+
                ") as row_number FROM " +:+ s))
  end.

(** The name [toSql(TopNRowNumberNode)] gives the row-number column: the
    last column of the node's output type when the node generates the row
    number.  [children().size() - 1] is computed on [size_t]. *)
Definition rowNumberColumnName (outputType : VType) (generateRowNumber : bool)
  : Outcome string :=
  if generateRowNumber
  then nameOf outputType ((Z.of_nat (size outputType) - 1) mod 2 ^ 64)
  else Ok "row_number".

(** [toSql(TopNRowNumberNode)] *)
Definition toSqlTopNRowNumber (outputType : VType)
    (partitionKeys sortingKeys : list string) (sortingOrders : list SortOrder)
    (limit : Z) (generateRowNumber : bool)
    (source : PlanNode) (sourceSql : Outcome (option string))
  : Outcome (option string) :=
  let inputType := outputTypeOf source in
  if negb (isSupportedDwrfType inputType) then Ok None else
  cols ← inputColumnsSql inputType;
  let partition :=
    if nonEmpty partitionKeys
    then "partition by " +:+ commaSeparated partitionKeys else "" in
  order ← (if nonEmpty sortingKeys
           then o ← sortingSql sortingKeys sortingOrders; Ok (" ORDER BY " +:+ o)
           else Ok "");
  rowNumberColumn ← rowNumberColumnName outputType generateRowNumber;
  src ← sourceSql;
  match src with
  | None => Ok None
  | Some s =>
      Ok (Some ("SELECT * FROM (SELECT " +:+ cols +:+ ", row_number() OVER (" +:+
                partition +:+ order +:+ ") as " +:+ rowNumberColumn +:+
                " FROM " +:+ s +:+ ") " +:+
                " where " +:+ rowNumberColumn +:+ " <= " +:+ pretty limit))
  end.

Definition quoted (s : string) : string := "'" +:+ s +:+ "'".

(** [toSql(TableWriteNode)] *)
Definition toSqlTableWrite (columnNames : list string)
    (insertTableHandle : option HiveInsertTableHandle)
    (sourceSql : Outcome (option string)) : Outcome (option string) :=
  match insertTableHandle with
  | None => Stuck UndefinedBehaviour
  | Some handle =>
      keys ← forEach (fun i =>
                column ← vectorAt (inputColumns handle) i;
                Ok (if isPartitionKey column then [columnName column] else []))
              (seq 0 (length columnNames));
      let partitionKeys := concat keys in
      let properties :=
        if isPartitioned handle then
          " PARTITIONED_BY = ARRAY[" +:+ commaSeparated (quoted <$> partitionKeys) +:+
          "], " +:+
          match bucketProperty handle with
          | Some bucket =>
              " BUCKET_COUNT = " +:+ pretty (bucketCount bucket) +:+
              ", BUCKETED_BY = ARRAY[" +:+
              commaSeparated (quoted <$> bucketedBy bucket) +:+ "], " +:+
              (if nonEmpty (sortedBy bucket) then
                 " SORTED_BY = ARRAY[" +:+
                 commaSeparated
                   ((fun c => quoted (sortColumn c +:+ " " +:+
                       (if isAscending (sortOrder c) then "ASC" else "DESC")))
                    <$> sortedBy bucket) +:+ "], "
               else "")
          | None => ""
          end
        else "" in
      src ← sourceSql;
      match src with
      | None => Ok None
      | Some s =>
          Ok (Some ("CREATE TABLE tmp_write" +:+ " WITH (" +:+ properties +:+
                    "FORMAT = 'ORC')  AS SELECT * FROM " +:+ s))
      end
  end.

(** [toSql(PlanNodePtr)]: the cascade of casts, and [VELOX_NYI()] when none
    succeeds. *)
Fixpoint toSql (plan : PlanNode) : Outcome (option string) :=
  match plan with
  | ProjectNode _ _ names projections source =>
      toSqlProject names projections (toSql source)
  | WindowNode id _ partitionKeys sortingKeys sortingOrders functions source =>
      toSqlWindow id partitionKeys sortingKeys sortingOrders functions source
        (toSql source)
  | AggregationNode _ _ step groupingKeys aggregateNames aggregates source =>
      toSqlAggregation step groupingKeys aggregateNames aggregates source
        (toSql source)
  | RowNumberNode _ _ partitionKeys source =>
      toSqlRowNumber partitionKeys source (toSql source)
  | TopNRowNumberNode _ outputType partitionKeys sortingKeys sortingOrders
      limit generateRowNumber source =>
      toSqlTopNRowNumber outputType partitionKeys sortingKeys sortingOrders
        limit generateRowNumber source (toSql source)
  | TableWriteNode _ _ columnNames insertTableHandle source =>
      toSqlTableWrite columnNames insertTableHandle (toSql source)
  | HashJoinNode _ _ probe build =>
      toSqlHashJoin plan (toSql probe) (toSql build)
  | NestedLoopJoinNode _ _ probe build =>
      toSqlNestedLoopJoin plan (toSql probe) (toSql build)
  | ValuesNode _ _ _ => toSqlValues plan
  | TableScanNode _ _ _ => toSqlTableScan plan
  | OtherNode _ _ _ => VELOX_NYI
  end.

End Compiler.

(* ================================================================= *)
(** ** The outside world: the HTTP endpoint and the disk *)

(** A request made with [cpr::Post] or [cpr::Get]. *)
Inductive Request :=
| Post (url body : string) (header : list (string * string))
| Get (url : string) (header : list (string * string)).

(** The [error] member of a reply of the engine. *)
Record QueryError := mkQueryError {
  errorCode : Z;
  message : string }.

(** One entry of the [columns] member. *)
Record Column := mkColumn {
  column_name : string;
  column_type : string }.

(** The JSON object of a reply, as [folly::parseJson] returns it: the
    members [ServerResponse] reads, each present or absent. *)
Record ResponseJson := mkResponseJson {
  response_id : option string;
  response_nextUri : option string;
  response_error : option QueryError;
  response_columns : option (list Column);
  response_binaryData : option (list string) }.

(** [cpr::Response].  [text] is given by what [folly::parseJson] makes of
    it: [None] for a body the parser rejects. *)
Record Response := mkResponse {
  status_code : Z;
  error_message : string;
  text : option ResponseJson }.

(** What the code does to the outside world, in order. *)
Inductive Event :=
| Http (request : Request)
| Decode (encodedData : string)
| WriteFile (path : string) (data : list RowVector).

Definition Trace := list Event.

Definition requestsOf (t : Trace) : list Request :=
  omap (fun ev => match ev with Http r => Some r | _ => None end) t.

(** The outside world: the endpoint answers a request knowing the requests
    made before it (oldest first); the disk accepts a file or fails. *)
Class Environment := {
  serve : list Request -> Request -> Response;
  writeToDisk : string -> list RowVector -> Outcome unit }.

(** Computations that throw and act on the outside world. *)
Definition M (A : Type) : Type := Trace -> Outcome A * Trace.

Definition ret {A} (a : A) : M A := fun t => (Ok a, t).

Definition bind {A B} (f : A -> M B) (m : M A) : M B :=
  fun t =>
    match m t with
    | (Ok a, t') => f a t'
    | (Raise e, t') => (Raise e, t')
    | (Stuck w, t') => (Stuck w, t')
    end.

#[global] Instance M_mret : MRet M := @ret.
#[global] Instance M_mbind : MBind M := @bind.

(** A computation that only throws or returns. *)
Definition lift {A} (o : Outcome A) : M A := fun t => (o, t).

Definition emit (ev : Event) : M unit := fun t => (Ok tt, t ++ [ev]).

(** [try { body } catch (e) { handler(e) }]: only a thrown exception reaches
    the handler. *)
Definition tryCatch {A} (body : M A) (handler : Exn -> M A) : M A :=
  fun t =>
    match body t with
    | (Raise e, t') => handler e t'
    | r => r
    end.

(** A [for] loop over [l] whose body acts on the outside world. *)
Fixpoint forEachM {A B} (f : A -> M B) (l : list A) : M (list B) :=
  match l with
  | [] => ret []
  | x :: l' => y ← f x; ys ← forEachM f l'; ret (y :: ys)
  end.

(** [VELOX_CHECK_EQ(a, b, message)] *)
Definition VELOX_CHECK_EQ (a b : Z) (message : string) : Outcome unit :=
  if a =? b then Ok tt
  else Raise (VeloxRuntimeError INVALID_STATE
                ("(" +:+ pretty a +:+ " vs. " +:+ pretty b +:+ ") " +:+ message)).

(** [VELOX_CHECK_GT(a, b)] *)
Definition VELOX_CHECK_GT (a b : Z) : Outcome unit :=
  if b <? a then Ok tt
  else Raise (VeloxRuntimeError INVALID_STATE
                ("(" +:+ pretty a +:+ " vs. " +:+ pretty b +:+ ")")).

(* ================================================================= *)
(** ** ServerResponse *)

Section ServerResponse.
Context {collaborators : Collaborators}.

(** The constructor: [folly::parseJson(responseJson)]. *)
Definition ServerResponse (responseJson : option ResponseJson) : Outcome ResponseJson :=
  match responseJson with
  | Some response_ => Ok response_
  | None => Raise (OtherException "folly::json::parse_error")
  end.

(** [ServerResponse::throwIfFailed] *)
Definition throwIfFailed (response_ : ResponseJson) : Outcome unit :=
  match response_error response_ with
  | None => Ok tt
  | Some error =>
      VELOX_FAIL ("Presto query failed: " +:+ pretty (errorCode error) +:+ " " +:+
                  message error)
  end.

(** [ServerResponse::queryId] *)
Definition queryId (response_ : ResponseJson) : Outcome string :=
  match response_id response_ with
  | Some i => Ok i
  | None => Raise (OtherException "std::out_of_range")
  end.

(** [ServerResponse::queryCompleted] *)
Definition queryCompleted (response_ : ResponseJson) : bool :=
  match response_nextUri response_ with
  | None => true
  | Some _ => false
  end.

(** [ServerResponse::nextUri] *)
Definition nextUri (response_ : ResponseJson) : Outcome string :=
  match response_nextUri response_ with
  | Some uri => Ok uri
  | None => Raise (OtherException "std::out_of_range")
  end.

(** The row type [queryResults] builds from the [columns] member. *)
Definition columnsRowType (response_ : ResponseJson) : Outcome VType :=
  match response_columns response_ with
  | None => Raise (OtherException "std::out_of_range")
  | Some columns =>
      fields ← forEach (fun column =>
                  type ← parseType (column_type column);
                  Ok (column_name column, type))
                columns;
      Ok (ROW_ fields)
  end.

(** [deserialize(rowType, Base64::decode(encodedData), pool)] on one entry of
    [binaryData]. *)
Definition decodePage (rowType : VType) (encodedData : string) : M RowVector :=
  _ ← emit (Decode encodedData);
  data ← lift (base64Decode encodedData);
  lift (deserialize rowType data).

(** [ServerResponse::queryResults] *)
Definition queryResults (response_ : ResponseJson) : M (list RowVector) :=
  match response_binaryData response_ with
  | None => ret []
  | Some binaryData =>
      rowType ← lift (columnsRowType response_);
      forEachM (decodePage rowType) binaryData
  end.

End ServerResponse.

(* ================================================================= *)
(** ** PrestoQueryRunner: protocol client and orchestration *)

(** [ReferenceQueryErrorCode] *)
Inductive ReferenceQueryErrorCode :=
| kSuccess
| kReferenceQueryFail
| kReferenceQueryUnsupported.

(** The members of [PrestoQueryRunner] that the code reads. *)
Record PrestoQueryRunner := mkPrestoQueryRunner {
  coordinatorUri_ : string;
  user_ : string;
  context_ : QueryRunnerContext }.

(** The double-quote character, for SQL text that quotes an identifier. *)
Definition dquote : string := String (ascii_of_nat 34) EmptyString.

(** [s.substr(pos)]: throws [std::out_of_range] when [pos > s.size()]. *)
Definition substr (s : string) (pos : nat) : Outcome string :=
  if (pos <=? String.length s)%nat
  then Ok (String.substring pos (String.length s - pos) s)
  else Raise (OtherException "std::out_of_range").

(** [asRowType(type)] followed by the use of the result: the cast yields
    null for a type that is not a row type. *)
Definition asRowType (type : VType) : Outcome VType :=
  match kind type with
  | ROW => Ok type
  | _ => Stuck UndefinedBehaviour
  end.

Section Runner.
Context {collaborators : Collaborators} {environment : Environment}.
Variable runner : PrestoQueryRunner.

(** One HTTP round trip.  The timeout of the call is the endpoint's
    business: a call that times out comes back with a status that is not
    200. *)
Definition http (request : Request) : M Response :=
  fun t => (Ok (serve (requestsOf t) request), t ++ [Http request]).

(** [PrestoQueryRunner::startQuery] *)
Definition startQuery (sql sessionProperty : string) : M (option ResponseJson) :=
  let uri := coordinatorUri_ runner +:+ "/v1/statement?binaryResults=true" in
  let header :=
    [("X-Presto-User", user_ runner);
     ("X-Presto-Catalog", "hive");
     ("X-Presto-Schema", "tpch");
     ("Content-Type", "text/plain");
     ("X-Presto-Session", sessionProperty)] in
  response ← http (Post uri sql header);
  _ ← lift (VELOX_CHECK_EQ (status_code response) 200
              ("POST to " +:+ uri +:+ " failed: " +:+ error_message response));
  ret (text response).

(** [PrestoQueryRunner::fetchNext] *)
Definition fetchNext (nextUri : string) : M (option ResponseJson) :=
  let header := [("X-Presto-Client-Binary-Results", "true")] in
  response ← http (Get nextUri header);
  _ ← lift (VELOX_CHECK_EQ (status_code response) 200
              ("GET from " +:+ nextUri +:+ " failed: " +:+ error_message response));
  ret (text response).

(** The [for (;;)] loop of [execute(sql, sessionProperty)], entered with the
    current response and the results accumulated so far.  [fuel] bounds the
    number of iterations. *)
Fixpoint poll (fuel : nat) (response : ResponseJson) (results : list RowVector)
  : M (list RowVector) :=
  match fuel with
  | O => lift (Stuck OutOfFuel)
  | S fuel' =>
      page ← queryResults response;
      let results := results ++ page in
      if queryCompleted response then ret results
      else
        uri ← lift (nextUri response);
        next ← fetchNext uri;
        response' ← lift (ServerResponse next);
        _ ← lift (throwIfFailed response');
        poll fuel' response' results
  end.

(** [PrestoQueryRunner::execute(sql, sessionProperty)] *)
Definition execute (fuel : nat) (sql sessionProperty : string) : M (list RowVector) :=
  first ← startQuery sql sessionProperty;
  response ← lift (ServerResponse first);
  _ ← lift (throwIfFailed response);
  poll fuel response [].

(** [PrestoQueryRunner::execute(sql)] *)
Definition execute_sql (fuel : nat) (sql : string) : M (list RowVector) :=
  execute fuel sql "".

(** [writeToFile] *)
Definition writeToFile (path : string) (data : list RowVector) : M unit :=
  _ ← lift (VELOX_CHECK_GT (Z.of_nat (length data)) 0);
  _ ← emit (WriteFile path data);
  lift (writeToDisk path data).

(** [PrestoQueryRunner::createTable] *)
Definition createTable (fuel : nat) (name : string) (type : VType) : M string :=
  inputType ← lift (asRowType type);
  nulls ← lift (forEach (fun '(i, child) =>
                   typeSql ← toTypeSql child;
                   Ok (appendComma i +:+ "cast(null as " +:+ typeSql +:+ ")"))
                 (indexed (children inputType)));
  let nullValues := String.concat "" nulls in
  _ ← execute_sql fuel ("DROP TABLE IF EXISTS " +:+ name);
  _ ← execute_sql fuel
        ("CREATE TABLE " +:+ name +:+ "(" +:+ join ", " (childNames inputType) +:+
         ") WITH (format = 'DWRF') AS SELECT " +:+ nullValues);
  results ← execute_sql fuel
              ("SELECT " +:+ dquote +:+ "$path" +:+ dquote +:+ " FROM " +:+ name);
  filePath ← lift (extractSingleValue results);
  let tableDirectoryPath := parentPath filePath in
  _ ← execute_sql fuel ("DELETE FROM " +:+ name);
  ret tableDirectoryPath.

(** The first loop of [executeAndReturnVector]: a table whose row type has no
    column gets one all-null column. *)
Definition withNullRows (entry : string * list RowVector)
  : Outcome (string * list RowVector) :=
  let '(tableName, input) := entry in
  first ← vectorAt input 0;
  inputType ← asRowType (rvType first);
  if (size inputType =? 0)%nat then
    rows ← makeNullRows input (tableName +:+ "x");
    Ok (tableName, [rows])
  else Ok entry.

(** The second loop of [executeAndReturnVector]: create the table and write
    the data in its directory. *)
Definition materializeTable (fuel : nat) (entry : string * list RowVector) : M unit :=
  let '(tableName, input) := entry in
  first ← lift (vectorAt input 0);
  tableDirectoryPath ← createTable fuel tableName (rvType first);
  filePath ← lift (substr (pathAppend tableDirectoryPath (tableName +:+ ".dwrf"))
                     (String.length "file:"));
  writeToFile filePath input.

(** The [try] block of [executeAndReturnVector]. *)
Definition runQuery (fuel : nat) (plan : PlanNode) (sql : string)
  : M (option (list RowVector) * ReferenceQueryErrorCode) :=
  tables ← lift (getAllTables plan);
  inputMap ← lift (forEach withNullRows tables);
  _ ← forEachM (materializeTable fuel) inputMap;
  results ← execute_sql fuel sql;
  ret (Some results, kSuccess).

(** The test of the first [catch] clause: a [VeloxRuntimeError] whose
    message says that the server could not be reached. *)
Definition isConnectionFailure (e : Exn) : bool :=
  match e with
  | VeloxRuntimeError _ message => contains "Couldn't connect to server" message
  | _ => false
  end.

(** The two [catch] clauses of [executeAndReturnVector]. *)
Definition onQueryFailure (e : Exn)
  : M (option (list RowVector) * ReferenceQueryErrorCode) :=
  if isConnectionFailure e then lift (Raise e)
  else ret (None, kReferenceQueryFail).

(** [PrestoQueryRunner::executeAndReturnVector] *)
Definition executeAndReturnVector (fuel : nat) (plan : PlanNode)
  : M (option (list RowVector) * ReferenceQueryErrorCode) :=
  compiled ← lift (toSql (context_ runner) plan);
  match compiled with
  | Some sql => tryCatch (runQuery fuel plan sql) onQueryFailure
  | None => ret (None, kReferenceQueryUnsupported)
  end.

(** [PrestoQueryRunner::execute(plan)] *)
Definition execute_plan (fuel : nat) (plan : PlanNode)
  : M (option (list (list variant)) * ReferenceQueryErrorCode) :=
  result ← executeAndReturnVector fuel plan;
  match result.1 with
  | Some vectors =>
      rows ← lift (materialize vectors);
      ret (Some rows, result.2)
  | None => ret (None, result.2)
  end.

End Runner.

(* ================================================================= *)
(** ** A reference instance of the collaborators and a scripted endpoint *)

(** The base-table name of a Values node. *)
Definition getTableName (id : string) : string := "t_" +:+ id.

(** The Values nodes of a plan with their data, as [getAllTables] of the
    reference instance returns them. *)
Fixpoint valuesTables (plan : PlanNode) : list (string * list RowVector) :=
  match plan with
  | ValuesNode id _ values => [(getTableName id, values)]
  | ProjectNode _ _ _ _ source | WindowNode _ _ _ _ _ _ source
  | AggregationNode _ _ _ _ _ _ source | RowNumberNode _ _ _ source
  | TopNRowNumberNode _ _ _ _ _ _ _ source | TableWriteNode _ _ _ _ source =>
      valuesTables source
  | HashJoinNode _ _ probe build | NestedLoopJoinNode _ _ probe build =>
      valuesTables probe ++ valuesTables build
  | TableScanNode _ _ _ | OtherNode _ _ _ => []
  end.

(** The directory part of a path: what comes before its last [/]. *)
Fixpoint dirname (path : string) : option string :=
  match path with
  | EmptyString => None
  | String c rest =>
      match dirname rest with
      | Some dir => Some (String c dir)
      | None => if Ascii.eqb c "/" then Some EmptyString else None
      end
  end.

(** The SQL of a join in the reference instance. *)
Definition joinSql (probe build : Outcome (option string)) : Outcome (option string) :=
  l ← probe;
  r ← build;
  match l, r with
  | Some l, Some r => Ok (Some ("SELECT * FROM " +:+ l +:+ ", " +:+ r))
  | _, _ => Ok None
  end.

(** Modelled from the spec: the collaborators (PrestoSql.h, FuzzerUtil.h,
    the inherited [toSql] overloads, the result codec, the helpers of the
    table materializer) are defined outside PrestoQueryRunner.cpp.  This instance
    follows the spec where it speaks: Values and TableScan compile to a
    table reference, a join to a query over the SQL of its two sources, a
    Call to [name(arg, ...)], and every leaf table referenced by the plan is
    collected for materialization.  Where the spec is silent it makes the
    simplest choice: a row type with a column of UNKNOWN kind is not
    supported by the file format, a page decodes to one row holding its
    text. *)
Definition referenceCollaborators : Collaborators := {|
  isSupportedDwrfType t :=
    forallb (fun c => match kind c with UNKNOWN => false | _ => true end) (children t);
  toCallSql e := Ok (exprName e +:+ "(" +:+ commaSeparated (exprName <$> exprInputs e) +:+ ")");
  toCastSql e := Ok ("cast(" +:+ commaSeparated (exprName <$> exprInputs e) +:+ ")");
  toConcatSql e := Ok ("concat(" +:+ commaSeparated (exprName <$> exprInputs e) +:+ ")");
  toConstantSql e :=
    match e with
    | ConstantTypedExpr _ (VInt z) => Ok (pretty z)
    | ConstantTypedExpr _ (VString s) => Ok ("'" +:+ s +:+ "'")
    | ConstantTypedExpr _ (VBool b) => Ok (if b then "true" else "false")
    | _ => Ok "null"
    end;
  toCallInputsSql inputs := Ok (commaSeparated (exprName <$> inputs));
  toAggregateCallSql e _ _ _ :=
    Ok (exprName e +:+ "(" +:+ commaSeparated (exprName <$> exprInputs e) +:+ ")");
  sortOrderToString o :=
    (if isAscending o then "ASC" else "DESC") +:+ " NULLS " +:+
    (if isNullsFirst o then "FIRST" else "LAST");
  toTypeSql t :=
    match kind t with
    | BIGINT => Ok "BIGINT"
    | VARCHAR => Ok "VARCHAR"
    | UNKNOWN => Ok "UNKNOWN"
    | _ => Raise (VeloxUserError "unsupported type")
    end;
  toSqlHashJoin _ probe build := joinSql probe build;
  toSqlNestedLoopJoin _ probe build := joinSql probe build;
  toSqlValues plan :=
    match plan with
    | ValuesNode id _ _ => Ok (Some (getTableName id))
    | _ => Stuck UndefinedBehaviour
    end;
  toSqlTableScan plan :=
    match plan with
    | TableScanNode _ _ tableName => Ok (Some tableName)
    | _ => Stuck UndefinedBehaviour
    end;
  parseType s :=
    if String.eqb s "bigint" then Ok BIGINT_
    else if String.eqb s "varchar" then Ok VARCHAR_
    else Raise (VeloxRuntimeError INVALID_STATE "Failed to parse type");
  base64Decode s := Ok s;
  deserialize rowType data := Ok (mkRowVector rowType [[VString data]]);
  getAllTables plan := Ok (valuesTables plan);
  makeNullRows input name :=
    Ok (mkRowVector (ROW_ [(name, scalarType UNKNOWN)]) ((fun _ => [VNull]) <$> input));
  extractSingleValue results :=
    match results with
    | [mkRowVector _ [[VString s]]] => Ok s
    | _ => Raise (VeloxRuntimeError INVALID_STATE "Expected one value")
    end;
  parentPath p := default p (dirname p);
  pathAppend dir file := dir +:+ "/" +:+ file;
  materialize vectors := Ok (concat (rvRows <$> vectors))
|}.

(** The reply of an endpoint that cannot be reached. *)
Definition unreachable : Response :=
  mkResponse 0 "Couldn't connect to server" None.

(** A reply with status 200 and the given JSON body. *)
Definition ok200 (body : ResponseJson) : Response :=
  mkResponse 200 "" (Some body).

(** A scripted endpoint: it answers the requests that follow the first
    [served] ones with [script], in order, whatever the requests are, and
    cannot be reached once the script is over.  The disk accepts every
    file. *)
Definition scriptedEnvironment (served : nat) (script : list Response) : Environment := {|
  serve history _ := nth (length history - served) script unreachable;
  writeToDisk _ _ := Ok tt
|}.

(** The continuation request for a response that carries [nextUri]. *)
Definition continuationOf (response : ResponseJson) : Request :=
  Get (default "" (response_nextUri response))
      [("X-Presto-Client-Binary-Results", "true")].

(** The statement request [startQuery] posts. *)
Definition statementRequest (runner : PrestoQueryRunner) (sql sessionProperty : string)
  : Request :=
  Post (coordinatorUri_ runner +:+ "/v1/statement?binaryResults=true") sql
       [("X-Presto-User", user_ runner);
        ("X-Presto-Catalog", "hive");
        ("X-Presto-Schema", "tpch");
        ("Content-Type", "text/plain");
        ("X-Presto-Session", sessionProperty)].

(** What [queryResults] returns, without the trace. *)
Definition decodedPages {collaborators : Collaborators} (response_ : ResponseJson)
  : Outcome (list RowVector) :=
  match response_binaryData response_ with
  | None => Ok []
  | Some binaryData =>
      rowType ← columnsRowType response_;
      forEach (fun encodedData =>
                 data ← base64Decode encodedData;
                 deserialize rowType data)
              binaryData
  end.

(** The entries of [binaryData] that [queryResults] decodes. *)
Definition encodedPages (response_ : ResponseJson) : list string :=
  default [] (response_binaryData response_).

Definition decodesOf (t : Trace) : list string :=
  omap (fun ev => match ev with Decode d => Some d | _ => None end) t.

(** The type signatures that mention a type name: at the top, or in a
    parameter at any depth, letter case ignored. *)
Inductive mentions (typeName : string) : TypeSignature -> Prop :=
| mentions_base base params :
    toLowerAscii base = toLowerAscii typeName ->
    mentions typeName (mkTypeSignature base params)
| mentions_parameter base params p :
    In p params -> mentions typeName p ->
    mentions typeName (mkTypeSignature base params).

(** A function signature mentions a type name in an argument type. *)
Definition inputMentions (typeName : string) (signature : FunctionSignature) : Prop :=
  exists a, In a (argumentTypes signature) /\ mentions typeName a.

(** A projection of a kind [toSql(ProjectNode)] has no case for. *)
Definition isOtherTypedExpr (e : TypedExpr) : bool :=
  match e with OtherTypedExpr _ _ => true | _ => false end.

(** A plan with, anywhere in its tree, a Project node with such a
    projection. *)
Fixpoint hasOtherProjection (plan : PlanNode) : bool :=
  match plan with
  | ProjectNode _ _ _ projections source =>
      existsb isOtherTypedExpr projections || hasOtherProjection source
  | WindowNode _ _ _ _ _ _ source
  | AggregationNode _ _ _ _ _ _ source | RowNumberNode _ _ _ source
  | TopNRowNumberNode _ _ _ _ _ _ _ source | TableWriteNode _ _ _ _ source =>
      hasOtherProjection source
  | HashJoinNode _ _ probe build | NestedLoopJoinNode _ _ probe build =>
      hasOtherProjection probe || hasOtherProjection build
  | ValuesNode _ _ _ | TableScanNode _ _ _ => false
  | OtherNode _ _ sources => existsb hasOtherProjection sources
  end.

(** The type names [isSupported] looks for in the argument types and in the
    return type, and those it looks for in the argument types only. *)
Definition namesRejectedAnywhere : list string :=
  ["bingtile"; "interval year to month"; "hugeint"; "hyperloglog"; "tdigest"].

Definition namesRejectedInInputs : list string :=
  ["json"; "ipaddress"; "ipprefix"; "uuid"].

(** What one turn of the poll loop does to the outside world when the
    response carries [nextUri]: it decodes the pages of the response, then
    requests the continuation. *)
Definition pollEvents (response : ResponseJson) : Trace :=
  (Decode <$> encodedPages response) ++ [Http (continuationOf response)].

(** A response after which the poll loop carries on: it names a
    continuation, reports no error, and its pages decode to [pages]. *)
Definition carriesOn {collaborators : Collaborators} (response : ResponseJson) (pages : list RowVector)
  : Prop :=
  is_Some (response_nextUri response) /\
  response_error response = None /\
  decodedPages response = Ok pages.

(** A plan, a runner and replies of the endpoint to run the model on: a
    RowNumber node over a table of one BIGINT column, whose output type names
    the row-number column [rn]. *)
Definition exampleContext : QueryRunnerContext := mkQueryRunnerContext ∅.

Definition exampleRunner : PrestoQueryRunner :=
  mkPrestoQueryRunner "http://127.0.0.1:8080" "fuzzer" exampleContext.

Definition exampleRowType : VType := ROW_ [("c0", BIGINT_)].

Definition exampleValues : PlanNode :=
  ValuesNode "0" exampleRowType [mkRowVector exampleRowType [[VInt 1]; [VInt 2]]].

Definition exampleRowNumber : PlanNode :=
  RowNumberNode "1" (ROW_ [("c0", BIGINT_); ("rn", BIGINT_)]) ["c0"] exampleValues.

Definition exampleTopNRowNumber : PlanNode :=
  TopNRowNumberNode "1" (ROW_ [("c0", BIGINT_); ("rn", BIGINT_)]) ["c0"] ["c0"]
    [mkSortOrder true false] 3 true exampleValues.

Definition exampleProject : PlanNode :=
  ProjectNode "2" (ROW_ [("a", BIGINT_); ("b", BIGINT_)]) ["a"; "b"]
    [FieldAccessTypedExpr BIGINT_ "c0" []; OtherTypedExpr BIGINT_ []] exampleValues.

Definition exampleUnsupported : PlanNode :=
  RowNumberNode "1" (ROW_ [("u", scalarType UNKNOWN); ("rn", BIGINT_)]) []
    (ValuesNode "0" (ROW_ [("u", scalarType UNKNOWN)]) []).

Definition examplePage (data : string) : RowVector :=
  mkRowVector exampleRowType [[VString data]].

Definition exampleDone : ResponseJson :=
  mkResponseJson (Some "q") None None None None.

Definition examplePath : ResponseJson :=
  mkResponseJson (Some "q") None None
    (Some [mkColumn "$path" "varchar"]) (Some ["file:/data/t_0/part-0"]).

Definition exampleContinuing : ResponseJson :=
  mkResponseJson (Some "q") (Some "http://127.0.0.1:8080/v1/statement/q/1") None
    (Some [mkColumn "c0" "bigint"]) (Some ["AAA"]).

Definition exampleFinal : ResponseJson :=
  mkResponseJson (Some "q") None None
    (Some [mkColumn "c0" "bigint"]) (Some ["BBB"; "CCC"]).

Definition exampleFailed : ResponseJson :=
  mkResponseJson (Some "q") (Some "http://127.0.0.1:8080/v1/statement/q/2")
    (Some (mkQueryError 1 "SYNTAX_ERROR")) (Some [mkColumn "c0" "bigint"])
    (Some ["DDD"]).

(** C10 in the words of the claim: [result] is what [execute(plan)] has to
    return when [executeAndReturnVector] returns [vectorResult]: the same
    error code, a first component that is present exactly when the vectors
    are, and that is then the materialized rows of those vectors. *)
Definition materializedResult {collaborators : Collaborators}
    (vectorResult : option (list RowVector) * ReferenceQueryErrorCode)
    (result : option (list (list variant)) * ReferenceQueryErrorCode) : Prop :=
  result.2 = vectorResult.2 /\
  (is_Some result.1 <-> is_Some vectorResult.1) /\
  (forall vectors, vectorResult.1 = Some vectors ->
     exists rows, materialize vectors = Ok rows /\ result.1 = Some rows).

(** The replies that take the reference instance through the materialization
    of one table and a query answered in two pages. *)
Definition exampleSession : list Response :=
  ok200 <$> [exampleDone; exampleDone; examplePath; exampleDone;
             exampleContinuing; exampleFinal].

(** The source of a node of one of the six handled kinds that have exactly
    one: [node->sources()[0]]. *)
Definition sourceOf (plan : PlanNode) : option PlanNode :=
  match plan with
  | ProjectNode _ _ _ _ source | WindowNode _ _ _ _ _ _ source
  | AggregationNode _ _ _ _ _ _ source | RowNumberNode _ _ _ source
  | TopNRowNumberNode _ _ _ _ _ _ _ source | TableWriteNode _ _ _ _ source =>
      Some source
  | _ => None
  end.

(** The text of a [partition by] clause: empty without keys. *)
Definition partitionBySql (keyword : string) (partitionKeys : list string) : string :=
  if nonEmpty partitionKeys
  then keyword +:+ join ", " partitionKeys else "".

(** A continuation request. *)
Definition isGet (request : Request) : bool :=
  match request with Get _ _ => true | Post _ _ _ => false end.

(** A response that ends the poll loop: it names no continuation, reports
    no error, and its pages decode to [pages]. *)
Definition completes {collaborators : Collaborators} (response : ResponseJson)
    (pages : list RowVector) : Prop :=
  response_nextUri response = None /\
  response_error response = None /\
  decodedPages response = Ok pages.

(** The four statements of [createTable], in the order it runs them. *)
Definition createTableStatements (name : string) (columns typeSqls : list string)
  : list string :=
  ["DROP TABLE IF EXISTS " +:+ name;
   "CREATE TABLE " +:+ name +:+ "(" +:+ join ", " columns +:+
     ") WITH (format = 'DWRF') AS SELECT " +:+
     join ", " ((fun typeSql => "cast(null as " +:+ typeSql +:+ ")") <$> typeSqls);
   "SELECT " +:+ dquote +:+ "$path" +:+ dquote +:+ " FROM " +:+ name;
   "DELETE FROM " +:+ name].

(** An endpoint that answers every request with the same reply. *)
Definition steadyEnvironment (reply : Response) : Environment := {|
  serve _ _ := reply;
  writeToDisk _ _ := Ok tt
|}.

(** A plan without a Values node: nothing to materialize. *)
Definition exampleScan : PlanNode := TableScanNode "7" exampleRowType "orders".

(** A reply in which the engine reports an error whose message has the
    text of a connection failure. *)
Definition exampleMisleading : ResponseJson :=
  mkResponseJson (Some "q") None
    (Some (mkQueryError 65536 "Remote task error: Couldn't connect to server"))
    None None.

(** The text [toSql(AggregationNode)] writes for one aggregate: the call,
    the filter of its mask when it has one, and its name. *)
Definition aggregateSql (aggregate : Aggregate) (callSql name : string) : string :=
  callSql +:+
  match mask aggregate with
  | Some m => " filter (where " +:+ m +:+ ")"
  | None => ""
  end +:+ " as " +:+ name.

(** The aggregates of a node with the SQL of their calls and their names. *)
Definition aggregateItems (aggregates : list Aggregate) (calls names : list string)
  : list string :=
  zip_with (fun aggregate '(callSql, name) => aggregateSql aggregate callSql name)
    aggregates (zip calls names).

(** The exception of the [VELOX_CHECK_EQ] in [startQuery] ([action] is
    ["POST to "]) and in [fetchNext] (["GET from "]) for a reply whose status
    is not 200: its message holds both statuses, the URI and the error
    message of the transport. *)
Definition failedRequest (action uri : string) (response : Response) : Exn :=
  VeloxRuntimeError INVALID_STATE
    ("(" +:+ pretty (status_code response) +:+ " vs. " +:+ pretty 200 +:+ ") " +:+
     action +:+ uri +:+ " failed: " +:+ error_message response).




(* ================================================================= *)
(** ** Loops that may throw *)

Lemma forEach_Ok_inv {A B} (f : A -> Outcome B) (l : list A) (ys : list B) :
  forEach f l = Ok ys -> forall x, In x l -> exists y, f x = Ok y.
Proof.
  revert ys. induction l as [|a l IH]; intros ys Hl x Hx.
  - destruct Hx.
  - simpl in Hl. destruct (f a) as [y| |] eqn:Ha; try discriminate.
    destruct (forEach f l) as [ys'| |] eqn:Hrest; try discriminate.
    destruct Hx as [<-|Hx].
    + eauto.
    + eapply IH; eauto.
Qed.

Lemma forEach_first_throw {A B} (f : A -> Outcome B) (l : list A) (i : nat)
    (x : A) (e : Exn) :
  l !! i = Some x ->
  (forall j y, (j < i)%nat -> l !! j = Some y -> exists z, f y = Ok z) ->
  f x = Raise e ->
  forEach f l = Raise e.
Proof.
  revert i. induction l as [|a l IH]; intros i Hi Hbefore Hx.
  - discriminate.
  - destruct i as [|i]; simpl in *.
    + injection Hi as ->. now rewrite Hx.
    + destruct (Hbefore 0%nat a) as [z Hz]; [lia|reflexivity|].
      rewrite Hz, (IH i); auto.
      intros j y Hj Hy. apply (Hbefore (S j) y); [lia|exact Hy].
Qed.

Lemma forEach_Ok_map {A B} (f : A -> Outcome B) (g : A -> B) (l : list A) :
  (forall x, In x l -> f x = Ok (g x)) -> forEach f l = Ok (map g l).
Proof.
  induction l as [|a l IH]; intros Hf; simpl.
  - reflexivity.
  - rewrite (Hf a) by (left; reflexivity).
    rewrite IH; [reflexivity|]. intros x Hx. apply Hf. now right.
Qed.

Lemma indexed_lookup {A} (l : list A) (i : nat) :
  indexed l !! i = pair i <$> l !! i.
Proof. unfold indexed. apply list_lookup_imap. Qed.

(* ================================================================= *)
(** ** The support predicates *)

(** C5. [isConstantExprSupported] returns false for every constant whose type
    is timestamp, JSON, IP-address, IP-prefix or UUID, and true for every
    constant of type INTEGER, VARCHAR or DOUBLE. *)
Theorem isConstantExprSupported_by_type (type : VType) (value : variant) :
  (isTimestamp type || isJsonType type || isIPAddressType type ||
   isIPPrefixType type || isUuidType type = true ->
   isConstantExprSupported (ConstantTypedExpr type value) = false) /\
  (type = INTEGER_ \/ type = VARCHAR_ \/ type = DOUBLE_ ->
   isConstantExprSupported (ConstantTypedExpr type value) = true).
Proof.
  split.
  - intros Hbad. unfold isConstantExprSupported.
    destruct (isTimestamp type), (isJsonType type), (isIPAddressType type),
      (isIPPrefixType type), (isUuidType type);
      simpl in Hbad; try discriminate;
      rewrite ?andb_false_r, ?andb_false_l; reflexivity.
  - intros [-> | [-> | ->]]; reflexivity.
Qed.

Lemma isConstantExprSupported_by_type_witness :
  isConstantExprSupported (ConstantTypedExpr TIMESTAMP_ VNull) = false /\
  isConstantExprSupported (ConstantTypedExpr JSON_ (VString "{}")) = false /\
  isConstantExprSupported (ConstantTypedExpr IPPREFIX_ VNull) = false /\
  isConstantExprSupported (ConstantTypedExpr INTEGER_ (VInt 1)) = true.
Proof.
  split; [|split; [|split]].
  - apply (proj1 (isConstantExprSupported_by_type TIMESTAMP_ VNull)). reflexivity.
  - apply (proj1 (isConstantExprSupported_by_type JSON_ (VString "{}"))). reflexivity.
  - apply (proj1 (isConstantExprSupported_by_type IPPREFIX_ VNull)). reflexivity.
  - apply (proj2 (isConstantExprSupported_by_type INTEGER_ (VInt 1))).
    left. reflexivity.
Defined.

(** An expression that is not a constant is always supported. *)
Lemma isConstantExprSupported_not_constant (expr : TypedExpr) :
  (forall type value, expr <> ConstantTypedExpr type value) ->
  isConstantExprSupported expr = true.
Proof.
  intros Hexpr. destruct expr; try reflexivity. now destruct (Hexpr type value).
Qed.

Lemma containTypeName_mentions (typeName : string) (type : TypeSignature) :
  mentions typeName type -> containTypeName type typeName = true.
Proof.
  induction 1 as [base params Hbase | base params p Hin Hp IH]; simpl.
  - apply orb_true_iff. left. now apply String.eqb_eq.
  - apply orb_true_iff. right. apply existsb_exists. eauto.
Qed.

Lemma usesInputTypeName_mentions (typeName : string) (signature : FunctionSignature) :
  inputMentions typeName signature -> usesInputTypeName signature typeName = true.
Proof.
  intros (a & Hin & Ha). unfold usesInputTypeName.
  apply existsb_exists. exists a. split; [exact Hin|].
  now apply containTypeName_mentions.
Qed.

Lemma usesTypeName_mentions (typeName : string) (signature : FunctionSignature) :
  mentions typeName (returnType signature) \/ inputMentions typeName signature ->
  usesTypeName signature typeName = true.
Proof.
  intros [Hret | Harg]; unfold usesTypeName; apply orb_true_iff.
  - left. now apply containTypeName_mentions.
  - right. now apply usesInputTypeName_mentions.
Qed.

(** C6, as the code has it.  [isSupported] returns false whenever bingtile,
    interval year to month, hugeint, hyperloglog or tdigest is mentioned in
    an argument type or in the return type, and whenever json, ipaddress,
    ipprefix or uuid is mentioned in an argument type; in both cases at any
    nesting depth and whatever the letter case. *)
Theorem isSupported_rejects (signature : FunctionSignature) (typeName : string) :
  (In typeName namesRejectedAnywhere /\
   (mentions typeName (returnType signature) \/ inputMentions typeName signature)) \/
  (In typeName namesRejectedInInputs /\ inputMentions typeName signature) ->
  isSupported signature = false.
Proof.
  intros [[Hname Huse] | [Hname Huse]].
  - apply usesTypeName_mentions in Huse. unfold isSupported.
    simpl in Hname.
    destruct Hname as [<- | [<- | [<- | [<- | [<- | []]]]]];
      rewrite Huse; simpl; rewrite ?orb_true_r; reflexivity.
  - apply usesInputTypeName_mentions in Huse. unfold isSupported.
    simpl in Hname.
    destruct Hname as [<- | [<- | [<- | [<- | []]]]];
      rewrite Huse; simpl; rewrite ?orb_true_r; reflexivity.
Qed.

Lemma isSupported_rejects_witness :
  isSupported
    (mkFunctionSignature (mkTypeSignature "bigint" [])
       [mkTypeSignature "array" [mkTypeSignature "JSON" []]]) = false /\
  isSupported
    (mkFunctionSignature
       (mkTypeSignature "map"
          [mkTypeSignature "varchar" []; mkTypeSignature "HyperLogLog" []])
       [mkTypeSignature "varchar" []]) = false.
Proof.
  split.
  - apply (isSupported_rejects _ "json"). right. split.
    + simpl. tauto.
    + eexists. split; [left; reflexivity|].
      eapply mentions_parameter; [left; reflexivity|].
      apply mentions_base. reflexivity.
  - apply (isSupported_rejects _ "hyperloglog"). left. split.
    + simpl. tauto.
    + left. simpl.
      eapply mentions_parameter; [right; left; reflexivity|].
      apply mentions_base. reflexivity.
Defined.

(** C6, as stated, fails: a function that returns json and takes a varchar
    mentions a disallowed type name in its return type, and [isSupported]
    returns true for it. *)
Lemma isSupported_json_return_type :
  ~ (forall (signature : FunctionSignature) (typeName : string),
        In typeName (namesRejectedAnywhere ++ namesRejectedInInputs) ->
        mentions typeName (returnType signature) \/
        inputMentions typeName signature ->
        isSupported signature = false).
Proof.
  intros Hclaim.
  specialize (Hclaim
    (mkFunctionSignature (mkTypeSignature "json" []) [mkTypeSignature "varchar" []])
    "json").
  assert (Hfalse : true = false).
  { apply Hclaim.
    - simpl. tauto.
    - left. apply mentions_base. reflexivity. }
  discriminate.
Qed.

(* ================================================================= *)
(** ** The compiler *)

Section CompilerFacts.
Context {collaborators : Collaborators} {environment : Environment}.
Variable runner : PrestoQueryRunner.

(** C7. A plan node of none of the ten handled kinds takes [toSql] to
    [VELOX_NYI()], which throws the not-implemented failure: this is not the
    unsupported outcome [Ok None], and [executeAndReturnVector] and
    [execute(plan)] let it through, touching nothing. *)
Theorem toSql_unhandled_kind (fuel : nat) (id : string) (outputType : VType)
    (sources : list PlanNode) (t : Trace) :
  let plan := OtherNode id outputType sources in
  let nyi := VeloxRuntimeError NOT_IMPLEMENTED "" in
  toSql (context_ runner) plan = Raise nyi /\
  toSql (context_ runner) plan <> Ok None /\
  executeAndReturnVector runner fuel plan t = (Raise nyi, t) /\
  execute_plan runner fuel plan t = (Raise nyi, t).
Proof.
  cbn zeta. split; [reflexivity|]. split; [discriminate|]. split; reflexivity.
Qed.

(** C1. When [toSql] returns none for the plan, [executeAndReturnVector]
    returns [(none, kReferenceQueryUnsupported)] and leaves the trace as it
    found it: no request to the endpoint, no page decoded, no file
    written. *)
Theorem executeAndReturnVector_unsupported (fuel : nat) (plan : PlanNode) (t : Trace) :
  toSql (context_ runner) plan = Ok None ->
  executeAndReturnVector runner fuel plan t = (Ok (None, kReferenceQueryUnsupported), t).
Proof.
  intros Hsql. unfold executeAndReturnVector, mbind, M_mbind, bind, lift.
  rewrite Hsql. reflexivity.
Qed.

(** The SQL of a Project node over a source that compiles. *)
Lemma toSqlProject_source (names : list string) (projections : list TypedExpr)
    (s : string) :
  toSqlProject names projections (Ok (Some s)) =
  match forEach (fun '(i, name) =>
                   projection ← vectorAt projections i;
                   e ← projectionSql projection;
                   Ok (appendComma i +:+ e +:+ " as " +:+ name))
                (indexed names) with
  | Ok items => Ok (Some ("SELECT " +:+ String.concat "" items +:+ " FROM (" +:+ s +:+ ")"))
  | Raise e => Raise e
  | Stuck w => Stuck w
  end.
Proof. reflexivity. Qed.

(** C8, as the code has it.  A Project node whose source compiles and whose
    projections (as many as its names) include one that is none of
    FieldAccess, Call, Cast, Concat and Constant does not return, neither
    none nor SQL; when the projections before that one compile, it throws
    the not-implemented failure. *)
Theorem toSql_project_other_expression (id : string) (outputType : VType)
    (names : list string) (before after : list TypedExpr)
    (type : VType) (inputs : list TypedExpr) (source : PlanNode) (s : string) :
  let projections := before ++ OtherTypedExpr type inputs :: after in
  let plan := ProjectNode id outputType names projections source in
  toSql (context_ runner) source = Ok (Some s) ->
  length names = length projections ->
  (forall r, toSql (context_ runner) plan <> Ok r) /\
  (Forall (fun p => exists sql, projectionSql p = Ok sql) before ->
   toSql (context_ runner) plan = Raise (VeloxRuntimeError NOT_IMPLEMENTED "")).
Proof.
  cbn zeta. intros Hsource Hlen.
  assert (Hname : exists name, names !! length before = Some name).
  { apply lookup_lt_is_Some. rewrite Hlen, length_app. simpl. lia. }
  destruct Hname as [name Hname].
  assert (Hat : indexed names !! length before = Some (length before, name)).
  { rewrite indexed_lookup, Hname. reflexivity. }
  assert (Hother : (before ++ OtherTypedExpr type inputs :: after) !! length before
                   = Some (OtherTypedExpr type inputs)).
  { now rewrite list_lookup_middle. }
  simpl toSql. rewrite Hsource, toSqlProject_source. split.
  - intros r Hr.
    destruct (forEach _ (indexed names)) as [items| |] eqn:Hitems; try discriminate.
    eapply forEach_Ok_inv in Hitems as [y Hy].
    2: { apply list_elem_of_In. eapply list_elem_of_lookup_2. exact Hat. }
    cbn beta iota in Hy. unfold vectorAt in Hy. rewrite Hother in Hy.
    discriminate.
  - intros Hbefore.
    erewrite forEach_first_throw; [reflexivity|exact Hat| |].
    + intros j [j' y] Hj Hy. rewrite indexed_lookup in Hy.
      destruct (names !! j) as [n|] eqn:Hn; [|discriminate].
      simpl in Hy. injection Hy as <- <-.
      destruct (lookup_lt_is_Some_2 before j Hj) as [p Hp].
      rewrite Forall_forall in Hbefore.
      destruct (Hbefore p) as [sql Hsql].
      { eapply list_elem_of_lookup_2. exact Hp. }
      unfold vectorAt. rewrite lookup_app_l by exact Hj. rewrite Hp.
      cbn. rewrite Hsql. cbn. eauto.
    + cbn beta iota. unfold vectorAt. rewrite Hother. reflexivity.
Qed.

(** [toSql(RowNumberNode)] does not look at the output type of the node. *)
Lemma toSql_rowNumber_outputType (id : string) (declared other : VType)
    (partitionKeys : list string) (source : PlanNode) :
  toSql (context_ runner) (RowNumberNode id declared partitionKeys source) =
  toSql (context_ runner) (RowNumberNode id other partitionKeys source).
Proof. reflexivity. Qed.

(** [toSql(TopNRowNumberNode)] names the row-number column after the last
    column of the node's output type when the node generates it. *)
Lemma rowNumberColumnName_declared (outputType : VType) (columns : list string)
    (rowNumber : string) :
  childNames outputType = columns ++ [rowNumber] ->
  length (children outputType) = length (childNames outputType) ->
  Z.of_nat (length columns) < 2 ^ 32 ->
  rowNumberColumnName outputType true = Ok rowNumber.
Proof.
  intros Hnames Hlen Hsmall. unfold rowNumberColumnName, nameOf, size.
  rewrite Hlen, Hnames, length_app. simpl length.
  replace (Z.of_nat (length columns + 1) - 1) with (Z.of_nat (length columns)) by lia.
  rewrite (Z.mod_small _ (2 ^ 64)) by lia.
  rewrite Z.mod_small by lia.
  rewrite Nat2Z.id, list_lookup_middle by reflexivity. reflexivity.
Qed.

End CompilerFacts.

(* ================================================================= *)
(** ** The protocol client *)

Lemma requestsOf_app (t1 t2 : Trace) :
  requestsOf (t1 ++ t2) = requestsOf t1 ++ requestsOf t2.
Proof. apply omap_app. Qed.

Lemma requestsOf_decode (pages : list string) : requestsOf (Decode <$> pages) = [].
Proof. induction pages as [|p pages IH]; [reflexivity|exact IH]. Qed.

Lemma decodesOf_app (t1 t2 : Trace) :
  decodesOf (t1 ++ t2) = decodesOf t1 ++ decodesOf t2.
Proof. apply omap_app. Qed.

Lemma decodesOf_decode (pages : list string) : decodesOf (Decode <$> pages) = pages.
Proof.
  induction pages as [|p pages IH]; [reflexivity|].
  cbn. unfold decodesOf in IH. now rewrite IH.
Qed.

Lemma requestsOf_pollEvents (responses : list ResponseJson) :
  requestsOf (concat (pollEvents <$> responses)) = continuationOf <$> responses.
Proof.
  induction responses as [|r responses IH]; [reflexivity|].
  cbn [fmap list_fmap concat]. unfold pollEvents at 1.
  rewrite !requestsOf_app, requestsOf_decode, IH. reflexivity.
Qed.

Lemma decodesOf_pollEvents (responses : list ResponseJson) :
  decodesOf (concat (pollEvents <$> responses)) = concat (encodedPages <$> responses).
Proof.
  induction responses as [|r responses IH]; [reflexivity|].
  cbn [fmap list_fmap concat]. unfold pollEvents at 1.
  rewrite !decodesOf_app, decodesOf_decode, IH. cbn. now rewrite app_nil_r.
Qed.

Lemma contains_append (needle before s : string) :
  contains needle s = true -> contains needle (before +:+ s) = true.
Proof.
  intros Hs. induction before as [|c before IH]; [exact Hs|].
  change (String.prefix needle (String c (before +:+ s)) ||
          contains needle (before +:+ s) = true).
  rewrite IH. apply orb_true_r.
Qed.

Section ProtocolFacts.
Context {collaborators : Collaborators} {environment : Environment}.
Variable runner : PrestoQueryRunner.

Lemma forEachM_decodePage (rowType : VType) (binaryData : list string)
    (pages : list RowVector) (t : Trace) :
  forEach (fun encodedData =>
             data ← base64Decode encodedData; deserialize rowType data)
          binaryData = Ok pages ->
  forEachM (decodePage rowType) binaryData t = (Ok pages, t ++ (Decode <$> binaryData)).
Proof.
  revert pages t. induction binaryData as [|d binaryData IH]; intros pages t Hpages.
  - injection Hpages as <-. cbn. now rewrite app_nil_r.
  - cbn in Hpages.
    destruct (base64Decode d) as [data| |] eqn:Hd; try discriminate.
    cbn in Hpages.
    destruct (deserialize rowType data) as [page| |] eqn:Hpage; try discriminate.
    destruct (forEach _ binaryData) as [rest| |] eqn:Hrest; try discriminate.
    injection Hpages as <-.
    cbn. unfold mbind, M_mbind, bind, decodePage, emit, lift.
    unfold mbind, M_mbind, bind. rewrite Hd, Hpage.
    rewrite (IH rest) by reflexivity.
    unfold mret, M_mret, ret. now rewrite <- app_assoc.
Qed.

(** [queryResults] returns the decoded pages and records their decoding. *)
Lemma queryResults_decoded (response : ResponseJson) (pages : list RowVector)
    (t : Trace) :
  decodedPages response = Ok pages ->
  queryResults response t = (Ok pages, t ++ (Decode <$> encodedPages response)).
Proof.
  unfold decodedPages, queryResults, encodedPages.
  destruct (response_binaryData response) as [binaryData|]; cbn [default].
  - unfold mbind at 1, outcome_mbind, outcome_bind.
    destruct (columnsRowType response) as [rowType| |] eqn:Hrow; try discriminate.
    intros Hpages. unfold mbind, M_mbind, bind, lift, id.
    now apply forEachM_decodePage.
  - intros [= <-]. unfold ret. now rewrite app_nil_r.
Qed.

(** A continuation request answered with status 200. *)
Lemma fetchNext_ok (uri : string) (next : ResponseJson) (t : Trace) :
  serve (requestsOf t) (Get uri [("X-Presto-Client-Binary-Results", "true")])
    = ok200 next ->
  fetchNext uri t =
    (Ok (Some next), t ++ [Http (Get uri [("X-Presto-Client-Binary-Results", "true")])]).
Proof.
  intros Hserve. unfold fetchNext, mbind, M_mbind, bind, http, lift.
  rewrite Hserve. reflexivity.
Qed.

(** One turn of the poll loop on a response that names a continuation. *)
Lemma poll_step (fuel : nat) (response next : ResponseJson)
    (pages results : list RowVector) (t : Trace) :
  decodedPages response = Ok pages ->
  is_Some (response_nextUri response) ->
  serve (requestsOf t) (continuationOf response) = ok200 next ->
  poll (S fuel) response results t =
  bind (fun _ => poll fuel next (results ++ pages))
       (lift (throwIfFailed next)) (t ++ pollEvents response).
Proof.
  intros Hpages [uri Huri] Hserve.
  cbn [poll]. unfold mbind, M_mbind. unfold bind at 1.
  rewrite (queryResults_decoded _ pages) by exact Hpages.
  unfold queryCompleted, nextUri, continuationOf in *. rewrite Huri in *.
  cbn [default] in Hserve.
  unfold bind at 1. unfold lift at 1. unfold bind at 1.
  rewrite (fetchNext_ok uri next).
  2:{ now rewrite requestsOf_app, requestsOf_decode, app_nil_r. }
  unfold bind at 1. unfold lift at 1. cbn [ServerResponse].
  unfold pollEvents, continuationOf. rewrite Huri. cbn [default].
  rewrite <- app_assoc. reflexivity.
Qed.

(** The last turn of the poll loop. *)
Lemma poll_complete (fuel : nat) (response : ResponseJson)
    (pages results : list RowVector) (t : Trace) :
  decodedPages response = Ok pages ->
  response_nextUri response = None ->
  poll (S fuel) response results t =
  (Ok (results ++ pages), t ++ (Decode <$> encodedPages response)).
Proof.
  intros Hpages Huri.
  cbn [poll]. unfold mbind, M_mbind. unfold bind at 1.
  rewrite (queryResults_decoded _ pages) by exact Hpages.
  unfold queryCompleted. rewrite Huri. reflexivity.
Qed.

End ProtocolFacts.

Section ProtocolRequests.
Context {collaborators : Collaborators} {environment : Environment}.
Variable runner : PrestoQueryRunner.

(** [execute] once the statement request is answered with status 200. *)
Lemma execute_first (fuel : nat) (sql sessionProperty : string)
    (first : ResponseJson) (t : Trace) :
  serve (requestsOf t) (statementRequest runner sql sessionProperty) = ok200 first ->
  execute runner fuel sql sessionProperty t =
  bind (fun _ => poll fuel first [])
       (lift (throwIfFailed first))
       (t ++ [Http (statementRequest runner sql sessionProperty)]).
Proof.
  intros Hserve.
  unfold execute, startQuery, mbind, M_mbind, bind, http, lift.
  unfold statementRequest in Hserve. rewrite Hserve. reflexivity.
Qed.

(** A request that is not answered with status 200 throws, and the
    exception is a connection failure when the transport says so. *)
Lemma startQuery_unreachable (sql sessionProperty : string) (t : Trace) :
  let response := serve (requestsOf t) (statementRequest runner sql sessionProperty) in
  status_code response <> 200 ->
  contains "Couldn't connect to server" (error_message response) = true ->
  exists e,
    startQuery runner sql sessionProperty t =
      (Raise e, t ++ [Http (statementRequest runner sql sessionProperty)]) /\
    isConnectionFailure e = true.
Proof.
  cbn zeta. intros Hstatus Hmessage.
  unfold startQuery, mbind, M_mbind, bind, http, lift, VELOX_CHECK_EQ.
  unfold statementRequest in *.
  destruct (Z.eqb_spec (status_code (serve (requestsOf t)
    (Post (coordinatorUri_ runner +:+ "/v1/statement?binaryResults=true") sql
       [("X-Presto-User", user_ runner); ("X-Presto-Catalog", "hive");
        ("X-Presto-Schema", "tpch"); ("Content-Type", "text/plain");
        ("X-Presto-Session", sessionProperty)]))) 200) as [Heq|_];
    [contradiction|].
  eexists. split; [reflexivity|].
  unfold isConnectionFailure.
  repeat (apply contains_append). exact Hmessage.
Qed.

(** The same for a continuation request. *)
Lemma fetchNext_unreachable (uri : string) (t : Trace) :
  let request := Get uri [("X-Presto-Client-Binary-Results", "true")] in
  let response := serve (requestsOf t) request in
  status_code response <> 200 ->
  contains "Couldn't connect to server" (error_message response) = true ->
  exists e,
    fetchNext uri t = (Raise e, t ++ [Http request]) /\
    isConnectionFailure e = true.
Proof.
  cbn zeta. intros Hstatus Hmessage.
  unfold fetchNext, mbind, M_mbind, bind, http, lift, VELOX_CHECK_EQ.
  destruct (Z.eqb_spec (status_code (serve (requestsOf t)
    (Get uri [("X-Presto-Client-Binary-Results", "true")]))) 200) as [Heq|_];
    [contradiction|].
  eexists. split; [reflexivity|].
  unfold isConnectionFailure.
  repeat (apply contains_append). exact Hmessage.
Qed.

End ProtocolRequests.

Lemma script_next (before : list Response) (current : Response)
    (rest : list Response) (d : Response) :
  nth (length before + 1) (before ++ current :: rest) d = nth 0 rest d.
Proof.
  rewrite app_nth2 by lia.
  replace (length before + 1 - length before)%nat with 1%nat by lia.
  reflexivity.
Qed.

(** The poll loop against a scripted endpoint, over the responses after
    which it carries on: it gets to the response [x] that follows them with
    the pages of all of them, having requested one continuation for each. *)
Lemma poll_scripted {collaborators : Collaborators} (served : nat) (x : ResponseJson)
    (more : list Response) (fuel : nat) (rest : list ResponseJson) :
  forall (current : ResponseJson) (pages : list RowVector)
         (pagess : list (list RowVector)) (before script : list Response)
         (results : list RowVector) (t : Trace),
  script = before ++ (ok200 <$> current :: rest) ++ ok200 x :: more ->
  length (requestsOf t) = (served + length before + 1)%nat ->
  Forall2 carriesOn (current :: rest) (pages :: pagess) ->
  @poll _ (scriptedEnvironment served script)
        (length (current :: rest) + fuel) current results t =
  bind (fun _ => @poll _ (scriptedEnvironment served script) fuel x
                   (results ++ concat (pages :: pagess)))
       (lift (throwIfFailed x))
       (t ++ concat (pollEvents <$> current :: rest)).
Proof.
  induction rest as [|next rest IH];
    intros current pages pagess before script results t Hscript Hserved Hgood.
  - apply Forall2_cons_1 in Hgood as [(Huri & _ & Hpages) Hnil].
    apply Forall2_nil_inv_l in Hnil as ->.
    cbn [length Nat.add].
    rewrite (poll_step (environment := scriptedEnvironment served script)
               fuel current x pages results t Hpages Huri).
    + cbn [concat fmap list_fmap]. now rewrite !app_nil_r.
    + cbn [serve scriptedEnvironment]. rewrite Hserved, Hscript.
      replace (served + length before + 1 - served)%nat
        with (length before + 1)%nat by lia.
      cbn [fmap list_fmap app]. now rewrite script_next.
  - apply Forall2_cons_1 in Hgood as [(Huri & _ & Hpages) Hrest].
    destruct pagess as [|pages' pagess]; [now apply Forall2_nil_inv_r in Hrest|].
    pose proof Hrest as Hnext. apply Forall2_cons_1 in Hnext as [(_ & Herror & _) _].
    cbn [length Nat.add].
    rewrite (poll_step (environment := scriptedEnvironment served script)
               (S (length rest + fuel)) current next pages results t Hpages Huri).
    + unfold bind at 1, lift at 1, throwIfFailed at 1. rewrite Herror.
      change (S (length rest + fuel)) with (length (next :: rest) + fuel)%nat.
      rewrite (IH next pages' pagess (before ++ [ok200 current]) script
                 (results ++ pages) (t ++ pollEvents current)).
      * cbn [concat fmap list_fmap]. now rewrite <- !app_assoc.
      * rewrite Hscript. cbn [fmap list_fmap]. now rewrite <- !app_assoc.
      * unfold pollEvents.
        rewrite !requestsOf_app, requestsOf_decode, !length_app, Hserved.
        cbn. lia.
      * exact Hrest.
    + cbn [serve scriptedEnvironment]. rewrite Hserved, Hscript.
      replace (served + length before + 1 - served)%nat
        with (length before + 1)%nat by lia.
      cbn [fmap list_fmap app]. now rewrite script_next.
Qed.

(** C3. Against an endpoint that answers with N responses that each carry
    [nextUri] and then with one that does not, none with an error,
    [execute(sql)] stops, having made the statement request and exactly one
    continuation request per response that carries [nextUri], and returns
    the decoded pages of all N+1 responses, in order. *)
Theorem execute_polls_to_completion {collaborators : Collaborators}
    (runner : PrestoQueryRunner) (sql sessionProperty : string)
    (responses : list ResponseJson) (final : ResponseJson)
    (pagess : list (list RowVector)) (pages : list RowVector)
    (t : Trace) (fuel : nat) :
  Forall2 carriesOn responses pagess ->
  response_nextUri final = None ->
  response_error final = None ->
  decodedPages final = Ok pages ->
  (length responses < fuel)%nat ->
  let environment :=
    scriptedEnvironment (length (requestsOf t)) (ok200 <$> responses ++ [final]) in
  let events :=
    Http (statementRequest runner sql sessionProperty) ::
    concat (pollEvents <$> responses) ++ (Decode <$> encodedPages final) in
  execute runner fuel sql sessionProperty t = (Ok (concat pagess ++ pages), t ++ events) /\
  requestsOf events =
    statementRequest runner sql sessionProperty :: (continuationOf <$> responses) /\
  decodesOf events = concat (encodedPages <$> responses ++ [final]).
Proof.
  intros Hgood Huri Herror Hpages Hfuel. cbn zeta. split; [|split].
  - destruct responses as [|first rest].
    + apply Forall2_nil_inv_l in Hgood as ->.
      rewrite (execute_first (environment := scriptedEnvironment _ _) runner
                 fuel sql sessionProperty final t).
      2:{ cbn [serve scriptedEnvironment]. now rewrite Nat.sub_diag. }
      unfold bind, lift, throwIfFailed. rewrite Herror.
      destruct fuel as [|fuel]; [cbn in Hfuel; lia|].
      rewrite (poll_complete fuel final pages [] _ Hpages Huri).
      cbn [concat fmap list_fmap app]. now rewrite <- app_assoc.
    + destruct pagess as [|pages0 pagess]; [now apply Forall2_nil_inv_r in Hgood|].
      pose proof Hgood as Hfirst.
      apply Forall2_cons_1 in Hfirst as [(_ & Herror0 & _) _].
      rewrite (execute_first (environment := scriptedEnvironment _ _) runner
                 fuel sql sessionProperty first t).
      2:{ cbn [serve scriptedEnvironment]. now rewrite Nat.sub_diag. }
      unfold bind at 1, lift at 1, throwIfFailed at 1. rewrite Herror0.
      replace fuel with (length (first :: rest) + S (fuel - length (first :: rest) - 1))%nat
        by lia.
      rewrite (poll_scripted (length (requestsOf t)) final [] _ rest first
                 pages0 pagess [] _ [] _).
      * unfold bind, lift, throwIfFailed. rewrite Herror.
        rewrite (poll_complete _ final pages _ _ Hpages Huri).
        cbn [app]. rewrite <- !app_assoc. reflexivity.
      * now rewrite fmap_app.
      * rewrite requestsOf_app, length_app. cbn. lia.
      * exact Hgood.
  - change (requestsOf (?a :: ?l)) with (requestsOf ([a] ++ l)).
    rewrite !requestsOf_app, requestsOf_pollEvents, requestsOf_decode, app_nil_r.
    reflexivity.
  - change (decodesOf (?a :: ?l)) with (decodesOf ([a] ++ l)).
    rewrite !decodesOf_app, decodesOf_pollEvents, decodesOf_decode, fmap_app, concat_app.
    cbn. now rewrite app_nil_r.
Qed.

Lemma execute_polls_to_completion_witness :
  @execute referenceCollaborators
    (scriptedEnvironment 0 (ok200 <$> [exampleContinuing] ++ [exampleFinal]))
    exampleRunner 2 "SELECT c0 FROM t_0" "" [] =
  (Ok [examplePage "AAA"; examplePage "BBB"; examplePage "CCC"],
   [Http (statementRequest exampleRunner "SELECT c0 FROM t_0" "");
    Decode "AAA";
    Http (continuationOf exampleContinuing);
    Decode "BBB"; Decode "CCC"]).
Proof.
  apply (proj1 (@execute_polls_to_completion referenceCollaborators exampleRunner
    "SELECT c0 FROM t_0" "" [exampleContinuing] exampleFinal
    [[examplePage "AAA"]] [examplePage "BBB"; examplePage "CCC"] [] 2
    ltac:(repeat constructor; eexists; reflexivity)
    eq_refl eq_refl eq_refl ltac:(simpl; lia))).
Defined.

(** C4. When a response of the poll sequence carries an error, [execute(sql)]
    throws at that response with a message that embeds the error code and
    the message of the engine; the request that fetched the response is the
    last one made, so its [nextUri] is not followed, and none of its
    [binaryData] is decoded. *)
Theorem execute_stops_at_error {collaborators : Collaborators}
    (runner : PrestoQueryRunner) (sql sessionProperty : string)
    (responses : list ResponseJson) (failed : ResponseJson) (error : QueryError)
    (more : list Response) (pagess : list (list RowVector))
    (t : Trace) (fuel : nat) :
  Forall2 carriesOn responses pagess ->
  response_error failed = Some error ->
  (length responses <= fuel)%nat ->
  let environment :=
    scriptedEnvironment (length (requestsOf t))
      ((ok200 <$> responses ++ [failed]) ++ more) in
  let events :=
    Http (statementRequest runner sql sessionProperty) ::
    concat (pollEvents <$> responses) in
  execute runner fuel sql sessionProperty t =
    (Raise (VeloxRuntimeError INVALID_STATE
              ("Presto query failed: " +:+ pretty (errorCode error) +:+ " " +:+
               message error)),
     t ++ events) /\
  requestsOf events =
    statementRequest runner sql sessionProperty :: (continuationOf <$> responses) /\
  decodesOf events = concat (encodedPages <$> responses).
Proof.
  intros Hgood Herror Hfuel. cbn zeta. split; [|split].
  - destruct responses as [|first rest].
    + rewrite (execute_first (environment := scriptedEnvironment _ _) runner
                 fuel sql sessionProperty failed t).
      2:{ cbn [serve scriptedEnvironment]. now rewrite Nat.sub_diag. }
      unfold bind, lift, throwIfFailed. rewrite Herror. reflexivity.
    + destruct pagess as [|pages0 pagess]; [now apply Forall2_nil_inv_r in Hgood|].
      pose proof Hgood as Hfirst.
      apply Forall2_cons_1 in Hfirst as [(_ & Herror0 & _) _].
      rewrite (execute_first (environment := scriptedEnvironment _ _) runner
                 fuel sql sessionProperty first t).
      2:{ cbn [serve scriptedEnvironment]. now rewrite Nat.sub_diag. }
      unfold bind at 1, lift at 1, throwIfFailed at 1. rewrite Herror0.
      replace fuel with (length (first :: rest) + (fuel - length (first :: rest)))%nat
        by lia.
      rewrite (poll_scripted (length (requestsOf t)) failed more _ rest first
                 pages0 pagess [] _ [] _).
      * unfold bind, lift, throwIfFailed. rewrite Herror.
        cbn [app]. rewrite <- !app_assoc. reflexivity.
      * now rewrite fmap_app, <- app_assoc.
      * rewrite requestsOf_app, length_app. cbn. lia.
      * exact Hgood.
  - change (requestsOf (?a :: ?l)) with (requestsOf ([a] ++ l)).
    rewrite !requestsOf_app, requestsOf_pollEvents. reflexivity.
  - change (decodesOf (?a :: ?l)) with (decodesOf ([a] ++ l)).
    rewrite !decodesOf_app, decodesOf_pollEvents. reflexivity.
Qed.

Lemma execute_stops_at_error_witness :
  @execute referenceCollaborators
    (scriptedEnvironment 0
       ((ok200 <$> [exampleContinuing] ++ [exampleFailed]) ++ [ok200 exampleFinal]))
    exampleRunner 1 "SELECT c0 FROM t_0" "" [] =
  (Raise (VeloxRuntimeError INVALID_STATE "Presto query failed: 1 SYNTAX_ERROR"),
   [Http (statementRequest exampleRunner "SELECT c0 FROM t_0" "");
    Decode "AAA";
    Http (continuationOf exampleContinuing)]).
Proof.
  apply (proj1 (@execute_stops_at_error referenceCollaborators exampleRunner
    "SELECT c0 FROM t_0" "" [exampleContinuing] exampleFailed
    (mkQueryError 1 "SYNTAX_ERROR") [ok200 exampleFinal]
    [[examplePage "AAA"]] [] 1
    ltac:(repeat constructor; eexists; reflexivity)
    eq_refl ltac:(simpl; lia))).
Defined.

(* ================================================================= *)
(** ** The orchestration *)

Section OrchestrationFacts.
Context {collaborators : Collaborators} {environment : Environment}.
Variable runner : PrestoQueryRunner.

(** What the two [catch] clauses make of an exception of the [try]
    block. *)
Lemma executeAndReturnVector_catches (fuel : nat) (plan : PlanNode) (sql : string)
    (t t' : Trace) (e : Exn) :
  toSql (context_ runner) plan = Ok (Some sql) ->
  runQuery runner fuel plan sql t = (Raise e, t') ->
  executeAndReturnVector runner fuel plan t =
    (if isConnectionFailure e then Raise e else Ok (None, kReferenceQueryFail), t').
Proof.
  intros Hsql Hrun.
  unfold executeAndReturnVector, mbind, M_mbind, bind, lift. rewrite Hsql.
  unfold tryCatch. rewrite Hrun. unfold onQueryFailure.
  destruct (isConnectionFailure e); reflexivity.
Qed.

(** What the [try] block returns is what [executeAndReturnVector] returns. *)
Lemma executeAndReturnVector_returns (fuel : nat) (plan : PlanNode) (sql : string)
    (t t' : Trace) (r : option (list RowVector) * ReferenceQueryErrorCode) :
  toSql (context_ runner) plan = Ok (Some sql) ->
  runQuery runner fuel plan sql t = (Ok r, t') ->
  executeAndReturnVector runner fuel plan t = (Ok r, t').
Proof.
  intros Hsql Hrun.
  unfold executeAndReturnVector, mbind, M_mbind, bind, lift. rewrite Hsql.
  unfold tryCatch. now rewrite Hrun.
Qed.

(** C10. When [executeAndReturnVector] returns, [execute(plan)] returns the
    same error code, with a first component that is present exactly when the
    vectors are and is then the materialized rows of those vectors, and
    leaves the same trace. *)
Theorem execute_plan_materializes (fuel : nat) (plan : PlanNode) (t t' : Trace)
    (vectorResult : option (list RowVector) * ReferenceQueryErrorCode) :
  executeAndReturnVector runner fuel plan t = (Ok vectorResult, t') ->
  (forall vectors, vectorResult.1 = Some vectors ->
     exists rows, materialize vectors = Ok rows) ->
  exists result,
    execute_plan runner fuel plan t = (Ok result, t') /\
    materializedResult vectorResult result.
Proof.
  intros Hvector Hrows. destruct vectorResult as [[vectors|] code].
  - destruct (Hrows vectors eq_refl) as [rows Hmaterialize].
    exists (Some rows, code). split.
    + unfold execute_plan, mbind, M_mbind, bind. rewrite Hvector.
      cbn [fst snd]. unfold lift. rewrite Hmaterialize. reflexivity.
    + split; [reflexivity|]. split.
      * cbn [fst]. split; eauto.
      * intros vs [= <-]. eauto.
  - exists (None, code). split.
    + unfold execute_plan, mbind, M_mbind, bind. now rewrite Hvector.
    + split; [reflexivity|]. split.
      * cbn [fst]. split; intros [? [=]].
      * intros vs [=].
Qed.

(** An exception that [executeAndReturnVector] lets through goes through
    [execute(plan)] too. *)
Lemma execute_plan_throws (fuel : nat) (plan : PlanNode) (t t' : Trace) (e : Exn) :
  executeAndReturnVector runner fuel plan t = (Raise e, t') ->
  execute_plan runner fuel plan t = (Raise e, t').
Proof.
  intros Hvector. unfold execute_plan, mbind, M_mbind, bind. now rewrite Hvector.
Qed.

End OrchestrationFacts.

Lemma executeAndReturnVector_unsupported_witness :
  @executeAndReturnVector referenceCollaborators (scriptedEnvironment 0 [])
    exampleRunner 0 exampleUnsupported [] =
  (Ok (None, kReferenceQueryUnsupported), []).
Proof.
  apply (@executeAndReturnVector_unsupported referenceCollaborators
           (scriptedEnvironment 0 []) exampleRunner 0 exampleUnsupported []).
  vm_compute. reflexivity.
Defined.

Lemma executeAndReturnVector_catches_witness :
  @executeAndReturnVector referenceCollaborators (scriptedEnvironment 0 [])
    exampleRunner 1 exampleRowNumber [] =
  (Raise (VeloxRuntimeError INVALID_STATE
     "(0 vs. 200) POST to http://127.0.0.1:8080/v1/statement?binaryResults=true failed: Couldn't connect to server"),
   [Http (statementRequest exampleRunner "DROP TABLE IF EXISTS t_0" "")]) /\
  @executeAndReturnVector referenceCollaborators
    (scriptedEnvironment 0 [ok200 exampleFailed])
    exampleRunner 1 exampleRowNumber [] =
  (Ok (None, kReferenceQueryFail),
   [Http (statementRequest exampleRunner "DROP TABLE IF EXISTS t_0" "")]).
Proof.
  split.
  - apply (@executeAndReturnVector_catches referenceCollaborators
             (scriptedEnvironment 0 []) exampleRunner 1 exampleRowNumber
             "SELECT c0, row_number() OVER (partition by c0) as row_number FROM t_0"
             [] [Http (statementRequest exampleRunner "DROP TABLE IF EXISTS t_0" "")]
             (VeloxRuntimeError INVALID_STATE
                "(0 vs. 200) POST to http://127.0.0.1:8080/v1/statement?binaryResults=true failed: Couldn't connect to server")).
    + vm_compute. reflexivity.
    + vm_compute. reflexivity.
  - apply (@executeAndReturnVector_catches referenceCollaborators
             (scriptedEnvironment 0 [ok200 exampleFailed]) exampleRunner 1
             exampleRowNumber
             "SELECT c0, row_number() OVER (partition by c0) as row_number FROM t_0"
             [] [Http (statementRequest exampleRunner "DROP TABLE IF EXISTS t_0" "")]
             (VeloxRuntimeError INVALID_STATE "Presto query failed: 1 SYNTAX_ERROR")).
    + vm_compute. reflexivity.
    + vm_compute. reflexivity.
Defined.

Lemma execute_plan_materializes_witness :
  exists result t',
    @execute_plan referenceCollaborators (scriptedEnvironment 0 exampleSession)
      exampleRunner 2 exampleRowNumber [] = (Ok result, t') /\
    result = (Some [[VString "AAA"]; [VString "BBB"]; [VString "CCC"]], kSuccess).
Proof.
  edestruct (@execute_plan_materializes referenceCollaborators
               (scriptedEnvironment 0 exampleSession) exampleRunner 2
               exampleRowNumber [])
    as (result & Hresult & Hcode & _ & Hrows).
  - vm_compute. reflexivity.
  - intros vectors [= <-]. eexists. reflexivity.
  - destruct (Hrows _ eq_refl) as (rows & Hmaterialize & Hfirst).
    exists result. eexists. split; [exact Hresult|].
    destruct result as [first code]. cbn [fst snd] in *.
    subst first code. injection Hmaterialize as <-. reflexivity.
Defined.

Lemma toSql_project_other_expression_witness :
  @toSql referenceCollaborators exampleContext exampleProject =
  Raise (VeloxRuntimeError NOT_IMPLEMENTED "").
Proof.
  apply (proj2 (@toSql_project_other_expression referenceCollaborators
    exampleRunner "2" (ROW_ [("a", BIGINT_); ("b", BIGINT_)]) ["a"; "b"]
    [FieldAccessTypedExpr BIGINT_ "c0" []] [] BIGINT_ [] exampleValues "t_0"
    eq_refl eq_refl)).
  repeat constructor. eexists. reflexivity.
Defined.

(** C8, as stated, fails: a Project node with a projection of another kind,
    over a Values node, does not compile to none; [toSql] throws the
    not-implemented failure. *)
Lemma toSql_other_projection_not_unsupported :
  hasOtherProjection exampleProject = true /\
  @toSql referenceCollaborators exampleContext exampleProject =
    Raise (VeloxRuntimeError NOT_IMPLEMENTED "") /\
  ~ (forall plan, hasOtherProjection plan = true ->
       @toSql referenceCollaborators exampleContext plan = Ok None).
Proof.
  split; [reflexivity|]. split; [reflexivity|].
  intros Hclaim. specialize (Hclaim exampleProject eq_refl). discriminate.
Qed.

(** C9 at a RowNumber node whose output type names the row-number column
    [rn]: the SQL names the column [row_number].  The TopNRowNumber node
    with the same output type gets SQL that names it [rn]. *)
Theorem toSql_rowNumber_column_name :
  nameOf (outputTypeOf exampleRowNumber) 1 = Ok "rn" /\
  @toSql referenceCollaborators exampleContext exampleRowNumber =
    Ok (Some "SELECT c0, row_number() OVER (partition by c0) as row_number FROM t_0") /\
  @toSql referenceCollaborators exampleContext exampleTopNRowNumber =
    Ok (Some "SELECT * FROM (SELECT c0, row_number() OVER (partition by c0 ORDER BY c0 ASC NULLS LAST) as rn FROM t_0)  where rn <= 3").
Proof.
  split; [|split]; vm_compute; reflexivity.
Qed.

(* ================================================================= *)
(** ** More on the text the compiler builds *)

Lemma append_nil_r (s : string) : s +:+ "" = s.
Proof.
  induction s as [|c s IH]; [reflexivity|].
  change (String c (s +:+ "") = String c s). now rewrite IH.
Qed.

Lemma append_assoc (s1 s2 s3 : string) : (s1 +:+ s2) +:+ s3 = s1 +:+ s2 +:+ s3.
Proof.
  induction s1 as [|c s1 IH]; [reflexivity|].
  change (String c ((s1 +:+ s2) +:+ s3) = String c (s1 +:+ s2 +:+ s3)).
  now rewrite IH.
Qed.

Lemma concat_empty_cons (x : string) (l : list string) :
  String.concat "" (x :: l) = x +:+ String.concat "" l.
Proof. destruct l; [symmetry; apply append_nil_r|reflexivity]. Qed.

Lemma join_cons_separated (x : string) (rest : list string) :
  x +:+ String.concat "" ((fun s => ", " +:+ s) <$> rest) = join ", " (x :: rest).
Proof.
  revert x. induction rest as [|y rest IH]; intros x.
  - apply append_nil_r.
  - cbn [fmap list_fmap]. rewrite concat_empty_cons, append_assoc, IH. reflexivity.
Qed.

(** The loop with [appendComma] writes what [folly::join(", ", ...)]
    writes. *)
Lemma commaSeparated_join (items : list string) :
  commaSeparated items = join ", " items.
Proof.
  unfold commaSeparated. destruct items as [|x rest]; [reflexivity|].
  rewrite imap_cons, concat_empty_cons.
  rewrite (imap_ext _ (const (fun s => ", " +:+ s))) by reflexivity.
  rewrite imap_const. apply join_cons_separated.
Qed.

Lemma bind_Ok_inv {A B} (m : Outcome A) (f : A -> Outcome B) (b : B) :
  m ≫= f = Ok b -> exists a, m = Ok a /\ f a = Ok b.
Proof. destruct m; cbn; intros H; try discriminate; eauto. Qed.

Lemma indexed_elem {A} (l : list A) (i : nat) (x : A) :
  In (i, x) (indexed l) -> l !! i = Some x.
Proof.
  intros Hin. apply list_elem_of_In, list_elem_of_lookup in Hin as [j Hj].
  rewrite indexed_lookup in Hj.
  destruct (l !! j) as [y|] eqn:Hy; [|discriminate].
  injection Hj as <- <-. exact Hy.
Qed.

(** A loop over the indices of a vector whose body returns at every index
    returns what the body returns, in order. *)
Lemma forEach_indexed {A B} (f : nat * A -> Outcome B) (g : nat -> A -> B)
    (l : list A) :
  (forall i x, l !! i = Some x -> f (i, x) = Ok (g i x)) ->
  forEach f (indexed l) = Ok (imap g l).
Proof.
  intros Hf.
  rewrite (forEach_Ok_map f (fun p => g p.1 p.2)).
  - unfold indexed. now rewrite fmap_imap.
  - intros [i x] Hin. apply Hf. now apply indexed_elem.
Qed.

Lemma lookups_of_list {A} (d : A) (l : list A) :
  (fun i => default d (l !! i)) <$> seq 0 (length l) = l.
Proof.
  apply list_eq. intros i. rewrite list_lookup_fmap.
  destruct (decide (i < length l)%nat) as [Hi|Hi].
  - rewrite lookup_seq_lt by exact Hi. cbn.
    destruct (lookup_lt_is_Some_2 l i Hi) as [x Hx]. now rewrite Hx.
  - rewrite lookup_seq_ge, lookup_ge_None_2 by lia. reflexivity.
Qed.

(** The select list of the input columns: for a row type with a name per
    child (fewer than [2^32]), the loop over [nameOf(i)] writes the names in
    order, separated by commas. *)
Lemma inputColumnsSql_names (inputType : VType) :
  length (children inputType) = length (childNames inputType) ->
  Z.of_nat (length (childNames inputType)) <= 2 ^ 32 ->
  inputColumnsSql inputType = Ok (join ", " (childNames inputType)).
Proof.
  intros Hlen Hsmall. unfold inputColumnsSql, size.
  rewrite (forEach_Ok_map _ (fun i => default "" (childNames inputType !! i))).
  - rewrite Hlen. change (map ?f ?l) with (f <$> l).
    rewrite lookups_of_list. cbn. now rewrite commaSeparated_join.
  - intros i Hi. apply in_seq in Hi. unfold nameOf.
    rewrite Z.mod_small by lia. rewrite Nat2Z.id.
    destruct (lookup_lt_is_Some_2 (childNames inputType) i) as [n Hn]; [lia|].
    now rewrite Hn.
Qed.

Lemma inputColumnsSql_names_witness :
  inputColumnsSql (ROW_ [("a", BIGINT_); ("b", VARCHAR_)]) = Ok "a, b".
Proof.
  apply (inputColumnsSql_names (ROW_ [("a", BIGINT_); ("b", VARCHAR_)])).
  - reflexivity.
  - vm_compute. discriminate.
Defined.

Section CompilerShapes.
Context {collaborators : Collaborators}.
Variable context : QueryRunnerContext.

(** A node of one of the six kinds with one source compiles to SQL only if
    its source does: an unsupported source, or one that throws, never gives
    SQL for the node. *)
Theorem toSql_source_must_compile (plan source : PlanNode) (sql : string) :
  sourceOf plan = Some source ->
  toSql context plan = Ok (Some sql) ->
  exists sourceSql, toSql context source = Ok (Some sourceSql).
Proof.
  intros Hsource Hplan.
  destruct (toSql context source) as [[sourceSql|]| |] eqn:Hs; [eauto|exfalso..];
    destruct plan; try discriminate Hsource; injection Hsource as ->;
    cbn [toSql] in Hplan; rewrite Hs in Hplan;
    unfold toSqlProject, toSqlWindow, toSqlAggregation, toSqlRowNumber,
      toSqlTopNRowNumber, toSqlTableWrite in Hplan;
    repeat (simplify_eq;
      match goal with
      | H : (if ?c then _ else _) = Ok _ |- _ => destruct c
      | H : match ?x with _ => _ end = Ok _ |- _ => destruct x
      | H : ?m ≫= _ = Ok _ |- _ => apply bind_Ok_inv in H as (? & ? & ?)
      end);
    simplify_eq.
Qed.

(** [toSql(AggregationNode)] checks the step first: for a step that is not
    [kSingle] it throws the [VeloxRuntimeError] of the failed check, which
    has no message, whatever the input type and the source are. *)
Theorem toSql_aggregation_step (id : string) (outputType : VType) (step : Step)
    (groupingKeys aggregateNames : list string) (aggregates : list Aggregate)
    (source : PlanNode) :
  step <> kSingle ->
  toSql context (AggregationNode id outputType step groupingKeys aggregateNames
                   aggregates source) =
  Raise (VeloxRuntimeError INVALID_STATE "").
Proof.
  intros Hstep. cbn [toSql]. unfold toSqlAggregation.
  destruct step; try reflexivity. now destruct Hstep.
Qed.

(** The file-format gate comes before the source: over an input type that
    the file format does not support, the Window, RowNumber, TopNRowNumber
    and single-step Aggregation nodes compile to none without compiling
    their source, so also over a source for which [toSql] would throw. *)
Theorem toSql_unsupported_input_type (id : string) (outputType : VType)
    (partitionKeys sortingKeys groupingKeys aggregateNames : list string)
    (sortingOrders : list SortOrder) (functions : list WindowFunction)
    (aggregates : list Aggregate) (limit : Z) (generateRowNumber : bool)
    (source : PlanNode) :
  isSupportedDwrfType (outputTypeOf source) = false ->
  toSql context (WindowNode id outputType partitionKeys sortingKeys sortingOrders
                   functions source) = Ok None /\
  toSql context (RowNumberNode id outputType partitionKeys source) = Ok None /\
  toSql context (TopNRowNumberNode id outputType partitionKeys sortingKeys
                   sortingOrders limit generateRowNumber source) = Ok None /\
  toSql context (AggregationNode id outputType kSingle groupingKeys aggregateNames
                   aggregates source) = Ok None.
Proof.
  intros Hgate. cbn [toSql].
  unfold toSqlWindow, toSqlRowNumber, toSqlTopNRowNumber, toSqlAggregation.
  cbn. rewrite Hgate. cbn. auto.
Qed.

(** [toSql(RowNumberNode)] over a supported input type with a name per
    column and a source that compiles: the SQL selects the input columns in
    order, then [row_number()] over the partition keys, from the source. *)
Theorem toSql_rowNumber_sql (id : string) (outputType : VType)
    (partitionKeys : list string) (source : PlanNode) (sourceSql : string) :
  let inputType := outputTypeOf source in
  isSupportedDwrfType inputType = true ->
  length (children inputType) = length (childNames inputType) ->
  Z.of_nat (length (childNames inputType)) <= 2 ^ 32 ->
  toSql context source = Ok (Some sourceSql) ->
  toSql context (RowNumberNode id outputType partitionKeys source) =
  Ok (Some ("SELECT " +:+ join ", " (childNames inputType) +:+
            ", row_number() OVER (" +:+
            partitionBySql "partition by " partitionKeys +:+
            ") as row_number FROM " +:+ sourceSql)).
Proof.
  cbn zeta. intros Hgate Hlen Hsmall Hsource.
  cbn [toSql]. unfold toSqlRowNumber. rewrite Hgate, Hsource.
  rewrite inputColumnsSql_names by assumption.
  unfold partitionBySql. rewrite commaSeparated_join. reflexivity.
Qed.

(** [toSql(TopNRowNumberNode)] when the node generates the row number and
    its output type ends with the column [rowNumber]: the SQL names the
    row-number column [rowNumber] and keeps the rows with
    [rowNumber <= limit]. *)
Theorem toSql_topNRowNumber_sql (id : string) (outputType : VType)
    (partitionKeys sortingKeys : list string) (sortingOrders : list SortOrder)
    (limit : Z) (source : PlanNode) (sourceSql order rowNumber : string)
    (columns : list string) :
  let inputType := outputTypeOf source in
  isSupportedDwrfType inputType = true ->
  length (children inputType) = length (childNames inputType) ->
  Z.of_nat (length (childNames inputType)) <= 2 ^ 32 ->
  sortingSql sortingKeys sortingOrders = Ok order ->
  childNames outputType = columns ++ [rowNumber] ->
  length (children outputType) = length (childNames outputType) ->
  Z.of_nat (length columns) < 2 ^ 32 ->
  toSql context source = Ok (Some sourceSql) ->
  toSql context (TopNRowNumberNode id outputType partitionKeys sortingKeys
                   sortingOrders limit true source) =
  Ok (Some ("SELECT * FROM (SELECT " +:+ join ", " (childNames inputType) +:+
            ", row_number() OVER (" +:+
            partitionBySql "partition by " partitionKeys +:+
            (if nonEmpty sortingKeys then " ORDER BY " +:+ order else "") +:+
            ") as " +:+ rowNumber +:+ " FROM " +:+ sourceSql +:+ ") " +:+
            " where " +:+ rowNumber +:+ " <= " +:+ pretty limit)).
Proof.
  cbn zeta. intros Hgate Hlen Hsmall Horder Hnames Hout Hcolumns Hsource.
  cbn [toSql]. unfold toSqlTopNRowNumber. rewrite Hgate, Hsource.
  rewrite inputColumnsSql_names by assumption.
  rewrite (rowNumberColumnName_declared outputType columns rowNumber) by assumption.
  unfold partitionBySql. rewrite commaSeparated_join, Horder.
  destruct (nonEmpty sortingKeys); reflexivity.
Qed.

End CompilerShapes.

Lemma toSql_source_must_compile_witness :
  exists sourceSql, @toSql referenceCollaborators exampleContext exampleValues
                    = Ok (Some sourceSql).
Proof.
  apply (@toSql_source_must_compile referenceCollaborators exampleContext
           exampleRowNumber exampleValues
           "SELECT c0, row_number() OVER (partition by c0) as row_number FROM t_0").
  - reflexivity.
  - vm_compute. reflexivity.
Defined.

Lemma toSql_aggregation_step_witness :
  @toSql referenceCollaborators exampleContext
    (AggregationNode "3" exampleRowType kPartial ["c0"] [] [] exampleValues) =
  Raise (VeloxRuntimeError INVALID_STATE "").
Proof.
  apply (@toSql_aggregation_step referenceCollaborators exampleContext).
  discriminate.
Defined.

Lemma toSql_unsupported_input_type_witness :
  @toSql referenceCollaborators exampleContext
    (RowNumberNode "1" exampleRowType []
       (OtherNode "9" (ROW_ [("u", scalarType UNKNOWN)]) [])) = Ok None.
Proof.
  apply (proj1 (proj2 (@toSql_unsupported_input_type referenceCollaborators
    exampleContext "1" exampleRowType [] [] [] [] [] [] [] 0 false
    (OtherNode "9" (ROW_ [("u", scalarType UNKNOWN)]) []) eq_refl))).
Defined.

Lemma toSql_rowNumber_sql_witness :
  @toSql referenceCollaborators exampleContext exampleRowNumber =
  Ok (Some "SELECT c0, row_number() OVER (partition by c0) as row_number FROM t_0").
Proof.
  apply (@toSql_rowNumber_sql referenceCollaborators exampleContext "1"
           (ROW_ [("c0", BIGINT_); ("rn", BIGINT_)]) ["c0"] exampleValues "t_0").
  - reflexivity.
  - reflexivity.
  - vm_compute. discriminate.
  - reflexivity.
Defined.

Lemma toSql_topNRowNumber_sql_witness :
  @toSql referenceCollaborators exampleContext exampleTopNRowNumber =
  Ok (Some "SELECT * FROM (SELECT c0, row_number() OVER (partition by c0 ORDER BY c0 ASC NULLS LAST) as rn FROM t_0)  where rn <= 3").
Proof.
  apply (@toSql_topNRowNumber_sql referenceCollaborators exampleContext "1"
           (ROW_ [("c0", BIGINT_); ("rn", BIGINT_)]) ["c0"] ["c0"]
           [mkSortOrder true false] 3 exampleValues "t_0" "c0 ASC NULLS LAST"
           "rn" ["c0"]).
  - reflexivity.
  - reflexivity.
  - vm_compute. discriminate.
  - reflexivity.
  - reflexivity.
  - reflexivity.
  - vm_compute. reflexivity.
  - reflexivity.
Defined.

Lemma forEach_returns {A B} (f : A -> Outcome B) (l : list A) :
  (forall x, In x l -> exists y, f x = Ok y) -> exists ys, forEach f l = Ok ys.
Proof.
  induction l as [|a l IH]; intros Hf; [now exists []|].
  destruct (Hf a) as [y Hy]; [now left|].
  destruct IH as [ys Hys]; [intros x Hx; apply Hf; now right|].
  exists (y :: ys). cbn. now rewrite Hy, Hys.
Qed.

Section CompilerNodes.
Context {collaborators : Collaborators}.
Variable context : QueryRunnerContext.

(** [toSql(WindowNode)] looks the frame clause up before it compiles the
    source: when the context has no frames for the node, a Window node with
    a window function (over a supported input type) throws
    [std::out_of_range], whatever its source compiles to. *)
Theorem toSql_window_missing_frames (id : string) (outputType : VType)
    (partitionKeys sortingKeys : list string) (sortingOrders : list SortOrder)
    (function : WindowFunction) (functions : list WindowFunction)
    (source : PlanNode) (columns inputs order : string) :
  isSupportedDwrfType (outputTypeOf source) = true ->
  inputColumnsSql (outputTypeOf source) = Ok columns ->
  toCallInputsSql (exprInputs (functionCall function)) = Ok inputs ->
  sortingSql sortingKeys sortingOrders = Ok order ->
  windowFrames_ context !! id = None ->
  toSql context (WindowNode id outputType partitionKeys sortingKeys sortingOrders
                   (function :: functions) source) =
  Raise (OtherException "std::out_of_range").
Proof.
  intros Hgate Hcolumns Hinputs Horder Hframes.
  cbn [toSql]. unfold toSqlWindow. rewrite Hgate, Hcolumns.
  unfold indexed. rewrite imap_cons. cbn [negb mbind outcome_mbind outcome_bind forEach].
  unfold toWindowCallSql, windowFrame. rewrite Hinputs, Horder, Hframes.
  destruct (nonEmpty sortingKeys); reflexivity.
Qed.

(** [toSql(ProjectNode)] over a source that compiles, with as many names as
    projections, all of which compile: the SQL selects each projection
    [as] its name, in order, from the source in parentheses. *)
Theorem toSql_project_sql (id : string) (outputType : VType) (names : list string)
    (projections : list TypedExpr) (expressions : list string)
    (source : PlanNode) (sourceSql : string) :
  Forall2 (fun projection expression => projectionSql projection = Ok expression)
    projections expressions ->
  length names = length projections ->
  toSql context source = Ok (Some sourceSql) ->
  toSql context (ProjectNode id outputType names projections source) =
  Ok (Some ("SELECT " +:+
            join ", " (zip_with (fun expression name => expression +:+ " as " +:+ name)
                         expressions names) +:+
            " FROM (" +:+ sourceSql +:+ ")")).
Proof.
  intros Hcompile Hlen Hsource. cbn [toSql]. rewrite Hsource.
  unfold toSqlProject. cbn [mbind outcome_mbind outcome_bind].
  rewrite (forEach_indexed _
             (fun i name => appendComma i +:+
                default "" (expressions !! i) +:+ " as " +:+ name)).
  - cbn [mbind outcome_mbind outcome_bind].
    rewrite <- commaSeparated_join. unfold commaSeparated.
    replace (imap (fun i s => appendComma i +:+ s)
               (zip_with (fun expression name => expression +:+ " as " +:+ name)
                  expressions names))
      with (imap (fun i name => appendComma i +:+
                    default "" (expressions !! i) +:+ " as " +:+ name) names);
      [reflexivity|].
    apply list_eq. intros i. rewrite !list_lookup_imap, lookup_zip_with.
    destruct (names !! i) as [name|] eqn:Hname.
    + assert (Hi : (i < length expressions)%nat).
      { rewrite <- (Forall2_length _ _ _ Hcompile), <- Hlen.
        eapply lookup_lt_Some. exact Hname. }
      destruct (lookup_lt_is_Some_2 expressions i Hi) as [e He].
      rewrite He. reflexivity.
    + now destruct (expressions !! i).
  - intros i name Hname.
    assert (Hi : (i < length projections)%nat).
    { rewrite <- Hlen. eapply lookup_lt_Some. exact Hname. }
    destruct (lookup_lt_is_Some_2 projections i Hi) as [p Hp].
    destruct (Forall2_lookup_l _ _ _ _ _ Hcompile Hp) as (e & He & Hpe).
    unfold vectorAt. rewrite Hp. cbn. rewrite Hpe, He. reflexivity.
Qed.

(** [toSql(TableWriteNode)] writes the bucket and sort properties inside the
    branch for a partitioned table: for a handle that is not partitioned
    the table properties are the format alone, whatever the bucket property
    of the handle. *)
Theorem toSql_tableWrite_unpartitioned (id : string) (outputType : VType)
    (columnNames : list string) (handle : HiveInsertTableHandle)
    (source : PlanNode) (sourceSql : string) :
  isPartitioned handle = false ->
  (length columnNames <= length (inputColumns handle))%nat ->
  toSql context source = Ok (Some sourceSql) ->
  toSql context (TableWriteNode id outputType columnNames (Some handle) source) =
  Ok (Some ("CREATE TABLE tmp_write WITH (FORMAT = 'ORC')  AS SELECT * FROM " +:+
            sourceSql)).
Proof.
  intros Hpartitioned Hcolumns Hsource. cbn [toSql]. unfold toSqlTableWrite.
  rewrite Hpartitioned, Hsource.
  edestruct (forEach_returns
    (fun i => column ← vectorAt (inputColumns handle) i;
              Ok (if isPartitionKey column then [columnName column] else []))
    (seq 0 (length columnNames))) as [keys Hkeys].
  - intros i Hi. apply in_seq in Hi.
    destruct (lookup_lt_is_Some_2 (inputColumns handle) i) as [c Hc]; [lia|].
    unfold vectorAt. rewrite Hc. cbn. eauto.
  - rewrite Hkeys. reflexivity.
Qed.

End CompilerNodes.

Lemma toSql_window_missing_frames_witness :
  @toSql referenceCollaborators exampleContext
    (WindowNode "4" exampleRowType [] [] []
       [mkWindowFunction (CallTypedExpr BIGINT_ "rank" []) false] exampleValues) =
  Raise (OtherException "std::out_of_range").
Proof.
  apply (@toSql_window_missing_frames referenceCollaborators exampleContext "4"
           exampleRowType [] [] []
           (mkWindowFunction (CallTypedExpr BIGINT_ "rank" []) false) []
           exampleValues "c0" "" "");
    reflexivity.
Defined.

Lemma toSql_project_sql_witness :
  @toSql referenceCollaborators exampleContext
    (ProjectNode "2" (ROW_ [("a", BIGINT_); ("b", BIGINT_)]) ["a"; "b"]
       [FieldAccessTypedExpr BIGINT_ "c0" []; ConstantTypedExpr BIGINT_ (VInt 1)]
       exampleValues) =
  Ok (Some "SELECT c0 as a, 1 as b FROM (t_0)").
Proof.
  apply (@toSql_project_sql referenceCollaborators exampleContext "2"
           (ROW_ [("a", BIGINT_); ("b", BIGINT_)]) ["a"; "b"]
           [FieldAccessTypedExpr BIGINT_ "c0" []; ConstantTypedExpr BIGINT_ (VInt 1)]
           ["c0"; "1"] exampleValues "t_0").
  - repeat constructor.
  - reflexivity.
  - reflexivity.
Defined.

Lemma toSql_tableWrite_unpartitioned_witness :
  @toSql referenceCollaborators exampleContext
    (TableWriteNode "5" exampleRowType ["c0"]
       (Some (mkHiveInsertTableHandle [mkHiveColumnHandle "c0" false]
                (Some (mkHiveBucketProperty 2 ["c0"] []))))
       exampleValues) =
  Ok (Some "CREATE TABLE tmp_write WITH (FORMAT = 'ORC')  AS SELECT * FROM t_0").
Proof.
  apply (@toSql_tableWrite_unpartitioned referenceCollaborators exampleContext "5"
           exampleRowType ["c0"]
           (mkHiveInsertTableHandle [mkHiveColumnHandle "c0" false]
              (Some (mkHiveBucketProperty 2 ["c0"] [])))
           exampleValues "t_0").
  - reflexivity.
  - simpl. lia.
  - reflexivity.
Defined.

(* ================================================================= *)
(** ** More on the protocol client *)

Section ProtocolShapes.
Context {collaborators : Collaborators} {environment : Environment}.
Variable runner : PrestoQueryRunner.

(** When [queryResults] returns, it returns one vector per entry of
    [binaryData], and it has decoded exactly those entries, in order. *)
Theorem queryResults_one_vector_per_page (response : ResponseJson)
    (pages : list RowVector) (t t' : Trace) :
  queryResults response t = (Ok pages, t') ->
  length pages = length (encodedPages response) /\
  t' = t ++ (Decode <$> encodedPages response).
Proof.
  unfold queryResults, encodedPages.
  destruct (response_binaryData response) as [binaryData|]; cbn [default id].
  - unfold mbind, M_mbind, bind, lift.
    destruct (columnsRowType response) as [rowType| |]; try discriminate.
    revert pages t. induction binaryData as [|d binaryData IH]; intros pages t.
    + intros [= <- <-]. now rewrite app_nil_r.
    + cbn [forEachM]. unfold mbind, M_mbind, bind. unfold decodePage at 1.
      unfold mbind, M_mbind, bind, emit, lift.
      destruct (base64Decode d) as [data| |]; try discriminate.
      destruct (deserialize rowType data) as [page| |]; try discriminate.
      destruct (forEachM (decodePage rowType) binaryData (t ++ [Decode d]))
        as [[rest| |] t1] eqn:Hrest; try discriminate.
      intros [= <- <-]. apply IH in Hrest as [Hlen ->].
      cbn [length fmap list_fmap]. rewrite Hlen, <- app_assoc. auto.
  - intros [= <- <-]. now rewrite app_nil_r.
Qed.

(** The poll loop only adds to the results it is entered with. *)
Theorem poll_keeps_results (fuel : nat) :
  forall (response : ResponseJson) (results final : list RowVector) (t t' : Trace),
  poll fuel response results t = (Ok final, t') ->
  exists later, final = results ++ later.
Proof.
  induction fuel as [|fuel IH]; intros response results final t t'.
  - discriminate.
  - cbn [poll]. unfold mbind, M_mbind. unfold bind at 1.
    destruct (queryResults response t) as [[page| |] t1]; try discriminate.
    destruct (queryCompleted response).
    + intros [= <- <-]. eauto.
    + unfold bind at 1. unfold lift at 1.
      destruct (nextUri response) as [uri| |]; try discriminate.
      unfold bind at 1.
      destruct (fetchNext uri t1) as [[next| |] t2]; try discriminate.
      unfold bind at 1. unfold lift at 1.
      destruct (ServerResponse next) as [response'| |]; try discriminate.
      unfold bind at 1. unfold lift at 1.
      destruct (throwIfFailed response') as [[]| |]; try discriminate.
      intros Hrest. apply IH in Hrest as [later ->].
      exists (page ++ later). now rewrite app_assoc.
Qed.

Lemma forEachM_decodePage_requests (rowType : VType) (binaryData : list string)
    (t : Trace) :
  requestsOf (forEachM (decodePage rowType) binaryData t).2 = requestsOf t.
Proof.
  revert t. induction binaryData as [|d binaryData IH]; intros t; [reflexivity|].
  cbn [forEachM]. unfold mbind, M_mbind, bind. unfold decodePage at 1.
  unfold mbind, M_mbind, bind, emit, lift.
  assert (Hd : requestsOf (t ++ [Decode d]) = requestsOf t).
  { rewrite requestsOf_app. cbn. apply app_nil_r. }
  destruct (base64Decode d) as [data| |]; [|exact Hd..].
  destruct (deserialize rowType data) as [page| |]; [|exact Hd..].
  specialize (IH (t ++ [Decode d])). rewrite Hd in IH.
  destruct (forEachM (decodePage rowType) binaryData (t ++ [Decode d]))
    as [[rest| |] t1]; exact IH.
Qed.

(** [queryResults] makes no request, whether it returns or throws. *)
Lemma queryResults_requests (response : ResponseJson) (t : Trace) :
  requestsOf (queryResults response t).2 = requestsOf t.
Proof.
  unfold queryResults.
  destruct (response_binaryData response) as [binaryData|]; [|reflexivity].
  unfold mbind, M_mbind, bind, lift.
  destruct (columnsRowType response) as [rowType| |]; [|reflexivity..].
  apply forEachM_decodePage_requests.
Qed.

(** [fetchNext] makes exactly one request, a GET, whether it returns or
    throws. *)
Lemma fetchNext_trace (uri : string) (t : Trace) :
  (fetchNext uri t).2 = t ++ [Http (Get uri [("X-Presto-Client-Binary-Results", "true")])].
Proof.
  unfold fetchNext, mbind, M_mbind, bind, http, lift.
  destruct (VELOX_CHECK_EQ _ _ _); reflexivity.
Qed.

(** Whatever the loop ends in, the requests it makes are continuation
    requests: the statement is never posted again. *)
Theorem poll_only_gets (fuel : nat) :
  forall (response : ResponseJson) (results : list RowVector) (t : Trace),
  exists requests,
    requestsOf (poll fuel response results t).2 = requestsOf t ++ requests /\
    forallb isGet requests = true.
Proof.
  induction fuel as [|fuel IH]; intros response results t.
  - exists []. cbn. now rewrite app_nil_r.
  - cbn [poll]. unfold mbind, M_mbind. unfold bind at 1.
    pose proof (queryResults_requests response t) as Hpage.
    destruct (queryResults response t) as [[page| |] t1]; cbn [snd] in Hpage.
    2,3: exists []; cbn [snd]; now rewrite Hpage, app_nil_r.
    destruct (queryCompleted response).
    { exists []. cbn [snd ret]. now rewrite Hpage, app_nil_r. }
    unfold bind at 1. unfold lift at 1.
    destruct (nextUri response) as [uri| |].
    2,3: exists []; cbn [snd]; now rewrite Hpage, app_nil_r.
    unfold bind at 1.
    pose proof (fetchNext_trace uri t1) as Hnext.
    destruct (fetchNext uri t1) as [[next| |] t2]; cbn [snd] in Hnext; subst t2.
    2,3: eexists [_]; cbn [snd]; rewrite requestsOf_app, Hpage; split; reflexivity.
    unfold bind at 1. unfold lift at 1.
    destruct (ServerResponse next) as [response'| |].
    2,3: eexists [_]; cbn [snd]; rewrite requestsOf_app, Hpage; split; reflexivity.
    unfold bind at 1. unfold lift at 1.
    destruct (throwIfFailed response') as [[]| |].
    2,3: eexists [_]; cbn [snd]; rewrite requestsOf_app, Hpage; split; reflexivity.
    destruct (IH response' (results ++ page)
                (t1 ++ [Http (Get uri [("X-Presto-Client-Binary-Results", "true")])]))
      as (requests & Hrequests & Hgets).
    exists (Get uri [("X-Presto-Client-Binary-Results", "true")] :: requests).
    rewrite Hrequests, requestsOf_app, Hpage, <- app_assoc. split; [reflexivity|].
    exact Hgets.
Qed.

(** The requests of [execute(sql, sessionProperty)]: the statement, then
    continuation requests. *)
Lemma execute_posts_then_gets (fuel : nat) (sql sessionProperty : string) (t : Trace) :
  exists requests,
    requestsOf (execute runner fuel sql sessionProperty t).2 =
      requestsOf t ++ statementRequest runner sql sessionProperty :: requests /\
    forallb isGet requests = true.
Proof.
  unfold execute, mbind, M_mbind. unfold bind at 1.
  assert (Hstart : (startQuery runner sql sessionProperty t).2 =
                   t ++ [Http (statementRequest runner sql sessionProperty)]).
  { unfold startQuery, mbind, M_mbind, bind, http, lift.
    destruct (VELOX_CHECK_EQ _ _ _); reflexivity. }
  destruct (startQuery runner sql sessionProperty t) as [[first| |] t1];
    cbn [snd] in Hstart; subst t1.
  2,3: exists []; cbn [snd]; rewrite requestsOf_app; split; reflexivity.
  unfold bind at 1. unfold lift at 1.
  destruct (ServerResponse first) as [response| |].
  2,3: exists []; cbn [snd]; rewrite requestsOf_app; split; reflexivity.
  unfold bind at 1. unfold lift at 1.
  destruct (throwIfFailed response) as [[]| |].
  2,3: exists []; cbn [snd]; rewrite requestsOf_app; split; reflexivity.
  destruct (poll_only_gets fuel response []
              (t ++ [Http (statementRequest runner sql sessionProperty)]))
    as (requests & Hrequests & Hgets).
  exists requests. rewrite Hrequests, requestsOf_app, <- app_assoc.
  split; [reflexivity|exact Hgets].
Qed.

(** [execute(sql, sessionProperty)] posts the statement once, first, and
    every request after it is a continuation request, whatever the endpoint
    answers and however the call ends. *)
Theorem execute_requests (fuel : nat) (sql sessionProperty : string) (t : Trace) :
  exists requests,
    requestsOf (execute runner fuel sql sessionProperty t).2 =
      requestsOf t ++ statementRequest runner sql sessionProperty :: requests /\
    forallb isGet requests = true.
Proof. apply execute_posts_then_gets. Qed.

End ProtocolShapes.

Lemma queryResults_one_vector_per_page_witness :
  length [examplePage "BBB"; examplePage "CCC"] = length (encodedPages exampleFinal) /\
  [Decode "BBB"; Decode "CCC"] = [] ++ (Decode <$> encodedPages exampleFinal).
Proof.
  apply (@queryResults_one_vector_per_page referenceCollaborators exampleFinal
           [examplePage "BBB"; examplePage "CCC"] [] [Decode "BBB"; Decode "CCC"]).
  vm_compute. reflexivity.
Defined.

Lemma poll_keeps_results_witness :
  exists later,
    [examplePage "AAA"; examplePage "BBB"; examplePage "CCC"] =
    [examplePage "AAA"] ++ later.
Proof.
  apply (@poll_keeps_results referenceCollaborators (scriptedEnvironment 0 []) 1
           exampleFinal [examplePage "AAA"] _ [] [Decode "BBB"; Decode "CCC"]).
  vm_compute. reflexivity.
Defined.

Section ProtocolErrors.
Context {collaborators : Collaborators} {environment : Environment}.
Variable runner : PrestoQueryRunner.

(** [execute] when the statement request is answered by one response that
    ends the poll loop. *)
Lemma execute_completes (fuel : nat) (sql sessionProperty : string)
    (response : ResponseJson) (pages : list RowVector) (t : Trace) :
  serve (requestsOf t) (statementRequest runner sql sessionProperty) = ok200 response ->
  completes response pages ->
  execute runner (S fuel) sql sessionProperty t =
  (Ok pages,
   t ++ Http (statementRequest runner sql sessionProperty) ::
        (Decode <$> encodedPages response)).
Proof.
  intros Hserve (Huri & Herror & Hpages).
  rewrite (execute_first runner (S fuel) sql sessionProperty response t Hserve).
  unfold bind, lift, throwIfFailed. rewrite Herror.
  rewrite (poll_complete fuel response pages [] _ Hpages Huri).
  now rewrite <- app_assoc.
Qed.

(** [execute] when the statement request is not answered with status 200,
    and when its body is not JSON. *)
Lemma execute_not_accepted (fuel : nat) (sql sessionProperty : string)
    (t : Trace) :
  let request := statementRequest runner sql sessionProperty in
  let response := serve (requestsOf t) request in
  (status_code response <> 200 ->
   execute runner fuel sql sessionProperty t =
   (Raise (VeloxRuntimeError INVALID_STATE
             ("(" +:+ pretty (status_code response) +:+ " vs. " +:+ pretty 200 +:+
              ") " +:+ "POST to " +:+
              (coordinatorUri_ runner +:+ "/v1/statement?binaryResults=true") +:+
              " failed: " +:+ error_message response)),
    t ++ [Http request])) /\
  (status_code response = 200 -> text response = None ->
   execute runner fuel sql sessionProperty t =
   (Raise (OtherException "folly::json::parse_error"), t ++ [Http request])).
Proof.
  cbn zeta. unfold execute, startQuery, mbind, M_mbind, bind, http, lift,
    VELOX_CHECK_EQ, statementRequest.
  split.
  - intros Hstatus.
    destruct (Z.eqb_spec (status_code (serve (requestsOf t)
      (Post (coordinatorUri_ runner +:+ "/v1/statement?binaryResults=true") sql
         [("X-Presto-User", user_ runner); ("X-Presto-Catalog", "hive");
          ("X-Presto-Schema", "tpch"); ("Content-Type", "text/plain");
          ("X-Presto-Session", sessionProperty)]))) 200) as [Heq|_];
      [contradiction|reflexivity].
  - intros Hstatus Htext. rewrite Hstatus, Htext. reflexivity.
Qed.

(** A statement request that is not answered with status 200, or whose
    body is not JSON, ends [execute] with an exception after that one
    request: nothing is decoded and no continuation is requested. *)
Theorem execute_statement_not_accepted (fuel : nat) (sql sessionProperty : string)
    (t : Trace) :
  let request := statementRequest runner sql sessionProperty in
  let response := serve (requestsOf t) request in
  (status_code response <> 200 ->
   execute runner fuel sql sessionProperty t =
   (Raise (VeloxRuntimeError INVALID_STATE
             ("(" +:+ pretty (status_code response) +:+ " vs. " +:+ pretty 200 +:+
              ") " +:+ "POST to " +:+
              (coordinatorUri_ runner +:+ "/v1/statement?binaryResults=true") +:+
              " failed: " +:+ error_message response)),
    t ++ [Http request])) /\
  (status_code response = 200 -> text response = None ->
   execute runner fuel sql sessionProperty t =
   (Raise (OtherException "folly::json::parse_error"), t ++ [Http request])).
Proof. apply execute_not_accepted. Qed.

(** The poll loop has no bound of its own: against an endpoint that answers
    every request with a response that carries [nextUri] (and no error and
    no data), after any number of turns it has not returned and has
    requested one continuation per turn. *)
Theorem poll_never_gives_up (response : ResponseJson) :
  (forall history request, serve history request = ok200 response) ->
  is_Some (response_nextUri response) ->
  response_error response = None ->
  response_binaryData response = None ->
  forall (fuel : nat) (results : list RowVector) (t : Trace),
  poll fuel response results t =
  (Stuck OutOfFuel, t ++ replicate fuel (Http (continuationOf response))).
Proof.
  intros Hserve Huri Herror Hdata.
  assert (Hpages : decodedPages response = Ok []).
  { unfold decodedPages. now rewrite Hdata. }
  assert (Hevents : pollEvents response = [Http (continuationOf response)]).
  { unfold pollEvents, encodedPages. now rewrite Hdata. }
  induction fuel as [|fuel IH]; intros results t.
  - cbn. now rewrite app_nil_r.
  - rewrite (poll_step fuel response response [] results t Hpages Huri (Hserve _ _)).
    unfold bind, lift, throwIfFailed. rewrite Herror, IH, Hevents.
    cbn [replicate]. now rewrite <- app_assoc.
Qed.

End ProtocolErrors.

Lemma execute_statement_not_accepted_witness :
  @execute referenceCollaborators (scriptedEnvironment 0 []) exampleRunner 1
    "SELECT 1" "" [] =
  (Raise (VeloxRuntimeError INVALID_STATE
     "(0 vs. 200) POST to http://127.0.0.1:8080/v1/statement?binaryResults=true failed: Couldn't connect to server"),
   [Http (statementRequest exampleRunner "SELECT 1" "")]).
Proof.
  apply (proj1 (@execute_statement_not_accepted referenceCollaborators
                  (scriptedEnvironment 0 []) exampleRunner 1 "SELECT 1" "" [])).
  vm_compute. discriminate.
Defined.

Lemma poll_never_gives_up_witness :
  @poll referenceCollaborators
    (steadyEnvironment
       (ok200 (mkResponseJson (Some "q") (Some "http://127.0.0.1:8080/next")
                 None None None)))
    3 (mkResponseJson (Some "q") (Some "http://127.0.0.1:8080/next") None None None)
    [] [] =
  (Stuck OutOfFuel,
   [] ++ replicate 3
     (Http (continuationOf
        (mkResponseJson (Some "q") (Some "http://127.0.0.1:8080/next")
           None None None)))).
Proof.
  apply (@poll_never_gives_up referenceCollaborators
           (steadyEnvironment
              (ok200 (mkResponseJson (Some "q") (Some "http://127.0.0.1:8080/next")
                        None None None)))
           (mkResponseJson (Some "q") (Some "http://127.0.0.1:8080/next")
              None None None)).
  - reflexivity.
  - eexists. reflexivity.
  - reflexivity.
  - reflexivity.
Defined.

(* ================================================================= *)
(** ** More on the orchestration *)

Section OrchestrationShapes.
Context {collaborators : Collaborators} {environment : Environment}.
Variable runner : PrestoQueryRunner.

(** When the [try] block returns, it returns vectors and [kSuccess]. *)
Lemma runQuery_returns_success (fuel : nat) (plan : PlanNode) (sql : string)
    (t t' : Trace) (r : option (list RowVector) * ReferenceQueryErrorCode) :
  runQuery runner fuel plan sql t = (Ok r, t') ->
  exists results, r = (Some results, kSuccess).
Proof.
  unfold runQuery, mbind, M_mbind, bind, lift. intros Hrun.
  repeat match type of Hrun with
    | (let (_, _) := ?x in _) = _ => destruct x as [[?| |] ?]
    | match ?x with _ => _ end = _ => destruct x
    end; try discriminate.
  injection Hrun as <- _. eauto.
Qed.

(** The result of [executeAndReturnVector] is never half filled: the
    vectors are present exactly when the code is [kSuccess]. *)
Theorem executeAndReturnVector_result (fuel : nat) (plan : PlanNode) (t t' : Trace)
    (vectors : option (list RowVector)) (code : ReferenceQueryErrorCode) :
  executeAndReturnVector runner fuel plan t = (Ok (vectors, code), t') ->
  (is_Some vectors <-> code = kSuccess).
Proof.
  unfold executeAndReturnVector, mbind, M_mbind. unfold bind at 1, lift at 1.
  destruct (toSql (context_ runner) plan) as [[sql|]| |]; try discriminate.
  - unfold tryCatch.
    destruct (runQuery runner fuel plan sql t) as [[r|e|] t1] eqn:Hrun.
    + intros [= -> <-]. apply runQuery_returns_success in Hrun as [results [= -> ->]].
      split; eauto.
    + unfold onQueryFailure. destruct (isConnectionFailure e); [discriminate|].
      intros [= <- <- <-]. split; [intros [? [=]]|discriminate].
    + discriminate.
  - intros [= <- <- <-]. split; [intros [? [=]]|discriminate].
Qed.

(** With no table to materialize, the [try] block is the query alone. *)
Lemma runQuery_no_tables (fuel : nat) (plan : PlanNode) (sql : string) (t : Trace) :
  getAllTables plan = Ok [] ->
  runQuery runner fuel plan sql t =
  match execute runner fuel sql "" t with
  | (Ok results, t') => (Ok (Some results, kSuccess), t')
  | (Raise e, t') => (Raise e, t')
  | (Stuck w, t') => (Stuck w, t')
  end.
Proof.
  intros Htables. unfold runQuery, mbind, M_mbind, bind, lift.
  rewrite Htables. cbn [forEach forEachM ret]. unfold execute_sql.
  destruct (execute runner fuel sql "" t) as [[results| |] t']; reflexivity.
Qed.

(** For a plan that compiles and has no table to materialize, the only
    statement posted is the compiled SQL, once, however the call ends. *)
Theorem executeAndReturnVector_posts_query_once (fuel : nat) (plan : PlanNode)
    (sql : string) (t : Trace) :
  toSql (context_ runner) plan = Ok (Some sql) ->
  getAllTables plan = Ok [] ->
  exists requests,
    requestsOf (executeAndReturnVector runner fuel plan t).2 =
      requestsOf t ++ statementRequest runner sql "" :: requests /\
    forallb isGet requests = true.
Proof.
  intros Hsql Htables.
  destruct (execute_posts_then_gets runner fuel sql "" t)
    as (requests & Hrequests & Hgets).
  exists requests. split; [|exact Hgets].
  unfold executeAndReturnVector, mbind, M_mbind. unfold bind at 1, lift at 1.
  rewrite Hsql. unfold tryCatch. rewrite (runQuery_no_tables fuel plan sql t Htables).
  destruct (execute runner fuel sql "" t) as [[results|e|] t']; cbn [snd] in *;
    try exact Hrequests.
  unfold onQueryFailure, lift, ret. destruct (isConnectionFailure e); exact Hrequests.
Qed.

(** An error that the engine reports for the query ends the call with
    [kReferenceQueryFail], unless the text [Couldn't connect to server]
    occurs in the failure message, as it does when it occurs in the message
    of the engine: then the exception is rethrown as if the endpoint could
    not be reached. *)
Theorem executeAndReturnVector_engine_error (fuel : nat) (plan : PlanNode)
    (sql : string) (t : Trace) (response : ResponseJson) (error : QueryError) :
  toSql (context_ runner) plan = Ok (Some sql) ->
  getAllTables plan = Ok [] ->
  serve (requestsOf t) (statementRequest runner sql "") = ok200 response ->
  response_error response = Some error ->
  let failure :=
    "Presto query failed: " +:+ pretty (errorCode error) +:+ " " +:+ message error in
  executeAndReturnVector runner fuel plan t =
    (if contains "Couldn't connect to server" failure
     then Raise (VeloxRuntimeError INVALID_STATE failure)
     else Ok (None, kReferenceQueryFail),
     t ++ [Http (statementRequest runner sql "")]) /\
  (contains "Couldn't connect to server" (message error) = true ->
   contains "Couldn't connect to server" failure = true).
Proof.
  intros Hsql Htables Hserve Herror. cbn zeta. split.
  - unfold executeAndReturnVector, mbind, M_mbind. unfold bind at 1, lift at 1.
    rewrite Hsql. unfold tryCatch. rewrite (runQuery_no_tables fuel plan sql t Htables).
    rewrite (execute_first runner fuel sql "" response t Hserve).
    unfold bind, lift, throwIfFailed. rewrite Herror.
    unfold VELOX_FAIL, onQueryFailure, isConnectionFailure, lift, ret.
    destruct (contains _ _); reflexivity.
  - intros Hmessage. repeat (apply contains_append). exact Hmessage.
Qed.

(** A reply to the query that is not JSON ends the call with
    [kReferenceQueryFail]: the parser's exception is not a
    [VeloxRuntimeError]. *)
Theorem executeAndReturnVector_malformed_reply (fuel : nat) (plan : PlanNode)
    (sql : string) (t : Trace) :
  toSql (context_ runner) plan = Ok (Some sql) ->
  getAllTables plan = Ok [] ->
  status_code (serve (requestsOf t) (statementRequest runner sql "")) = 200 ->
  text (serve (requestsOf t) (statementRequest runner sql "")) = None ->
  executeAndReturnVector runner fuel plan t =
  (Ok (None, kReferenceQueryFail), t ++ [Http (statementRequest runner sql "")]).
Proof.
  intros Hsql Htables Hstatus Htext.
  unfold executeAndReturnVector, mbind, M_mbind. unfold bind at 1, lift at 1.
  rewrite Hsql. unfold tryCatch. rewrite (runQuery_no_tables fuel plan sql t Htables).
  rewrite (proj2 (execute_not_accepted runner fuel sql "" t) Hstatus Htext).
  reflexivity.
Qed.

(** An endpoint that cannot be reached when the query is posted ends the
    call with the exception of the failed request, rethrown. *)
Theorem executeAndReturnVector_unreachable (fuel : nat) (plan : PlanNode)
    (sql : string) (t : Trace) :
  let response := serve (requestsOf t) (statementRequest runner sql "") in
  toSql (context_ runner) plan = Ok (Some sql) ->
  getAllTables plan = Ok [] ->
  status_code response <> 200 ->
  contains "Couldn't connect to server" (error_message response) = true ->
  executeAndReturnVector runner fuel plan t =
  (Raise (VeloxRuntimeError INVALID_STATE
            ("(" +:+ pretty (status_code response) +:+ " vs. " +:+ pretty 200 +:+
             ") " +:+ "POST to " +:+
             (coordinatorUri_ runner +:+ "/v1/statement?binaryResults=true") +:+
             " failed: " +:+ error_message response)),
   t ++ [Http (statementRequest runner sql "")]).
Proof.
  cbn zeta. intros Hsql Htables Hstatus Hmessage.
  unfold executeAndReturnVector, mbind, M_mbind. unfold bind at 1, lift at 1.
  rewrite Hsql. unfold tryCatch. rewrite (runQuery_no_tables fuel plan sql t Htables).
  rewrite (proj1 (execute_not_accepted runner fuel sql "" t) Hstatus).
  unfold onQueryFailure, isConnectionFailure.
  replace (contains "Couldn't connect to server" _) with true; [reflexivity|].
  symmetry. repeat (apply contains_append). exact Hmessage.
Qed.

End OrchestrationShapes.

Lemma executeAndReturnVector_result_witness :
  is_Some (Some [examplePage "AAA"; examplePage "BBB"; examplePage "CCC"])
  <-> kSuccess = kSuccess.
Proof.
  apply (@executeAndReturnVector_result referenceCollaborators
           (scriptedEnvironment 0 (ok200 <$> [exampleContinuing; exampleFinal]))
           exampleRunner 2 exampleScan []
           [Http (statementRequest exampleRunner "orders" ""); Decode "AAA";
            Http (continuationOf exampleContinuing); Decode "BBB"; Decode "CCC"]).
  vm_compute. reflexivity.
Defined.

Lemma executeAndReturnVector_posts_query_once_witness :
  exists requests,
    requestsOf (@executeAndReturnVector referenceCollaborators
                  (scriptedEnvironment 0 (ok200 <$> [exampleContinuing; exampleFinal]))
                  exampleRunner 2 exampleScan []).2 =
      requestsOf [] ++ statementRequest exampleRunner "orders" "" :: requests /\
    forallb isGet requests = true.
Proof.
  apply (@executeAndReturnVector_posts_query_once referenceCollaborators
           (scriptedEnvironment 0 (ok200 <$> [exampleContinuing; exampleFinal]))
           exampleRunner 2 exampleScan "orders" []); reflexivity.
Defined.

Lemma executeAndReturnVector_engine_error_witness :
  @executeAndReturnVector referenceCollaborators
    (scriptedEnvironment 0 [ok200 exampleFailed]) exampleRunner 1 exampleScan [] =
  (Ok (None, kReferenceQueryFail),
   [Http (statementRequest exampleRunner "orders" "")]) /\
  @executeAndReturnVector referenceCollaborators
    (scriptedEnvironment 0 [ok200 exampleMisleading]) exampleRunner 1 exampleScan [] =
  (Raise (VeloxRuntimeError INVALID_STATE
     "Presto query failed: 65536 Remote task error: Couldn't connect to server"),
   [Http (statementRequest exampleRunner "orders" "")]).
Proof.
  split.
  - apply (proj1 (@executeAndReturnVector_engine_error referenceCollaborators
      (scriptedEnvironment 0 [ok200 exampleFailed]) exampleRunner 1 exampleScan
      "orders" [] exampleFailed (mkQueryError 1 "SYNTAX_ERROR")
      eq_refl eq_refl eq_refl eq_refl)).
  - apply (proj1 (@executeAndReturnVector_engine_error referenceCollaborators
      (scriptedEnvironment 0 [ok200 exampleMisleading]) exampleRunner 1 exampleScan
      "orders" [] exampleMisleading
      (mkQueryError 65536 "Remote task error: Couldn't connect to server")
      eq_refl eq_refl eq_refl eq_refl)).
Defined.

Lemma executeAndReturnVector_malformed_reply_witness :
  @executeAndReturnVector referenceCollaborators
    (scriptedEnvironment 0 [mkResponse 200 "" None]) exampleRunner 1 exampleScan [] =
  (Ok (None, kReferenceQueryFail),
   [Http (statementRequest exampleRunner "orders" "")]).
Proof.
  apply (@executeAndReturnVector_malformed_reply referenceCollaborators
           (scriptedEnvironment 0 [mkResponse 200 "" None]) exampleRunner 1
           exampleScan "orders" []); reflexivity.
Defined.

Lemma executeAndReturnVector_unreachable_witness :
  @executeAndReturnVector referenceCollaborators (scriptedEnvironment 0 [])
    exampleRunner 1 exampleScan [] =
  (Raise (VeloxRuntimeError INVALID_STATE
     "(0 vs. 200) POST to http://127.0.0.1:8080/v1/statement?binaryResults=true failed: Couldn't connect to server"),
   [Http (statementRequest exampleRunner "orders" "")]).
Proof.
  apply (@executeAndReturnVector_unreachable referenceCollaborators
           (scriptedEnvironment 0 []) exampleRunner 1 exampleScan "orders" []).
  - reflexivity.
  - reflexivity.
  - vm_compute. discriminate.
  - vm_compute. reflexivity.
Defined.

(* ================================================================= *)
(** ** The table materializer *)

Lemma forEach_Ok_Forall2 {A B} (f : A -> Outcome B) (l : list A) (ys : list B) :
  forEach f l = Ok ys -> Forall2 (fun x y => f x = Ok y) l ys.
Proof.
  revert ys. induction l as [|a l IH]; intros ys Hl.
  - injection Hl as <-. constructor.
  - cbn in Hl. destruct (f a) as [y| |] eqn:Ha; try discriminate.
    destruct (forEach f l) as [ys'| |]; try discriminate.
    injection Hl as <-. constructor; auto.
Qed.

Lemma substring_all (s : string) : String.substring 0 (String.length s) s = s.
Proof. induction s as [|c s IH]; [reflexivity|]. cbn. now rewrite IH. Qed.

(** [substr(strlen("file:"))] takes the five characters of the scheme off a
    location. *)
Lemma substr_file_scheme (localPath : string) :
  substr ("file:" +:+ localPath) (String.length "file:") = Ok localPath.
Proof.
  unfold substr.
  change ("file:" +:+ localPath)
    with (String "f" (String "i" (String "l" (String "e" (String ":" localPath))))).
  cbn. rewrite Nat.sub_0_r, substring_all. reflexivity.
Qed.

Lemma requestsOf_statement (t : Trace) (request : Request) (pages : list string) :
  requestsOf (t ++ Http request :: (Decode <$> pages)) = requestsOf t ++ [request].
Proof.
  change (Http request :: (Decode <$> pages))
    with ([Http request] ++ (Decode <$> pages)).
  now rewrite !requestsOf_app, requestsOf_decode, app_nil_r.
Qed.

Lemma scripted_serve (served : nat) (script : list Response)
    (history : list Request) (request : Request) (i : nat) :
  length history = (served + i)%nat ->
  @serve (scriptedEnvironment served script) history request =
  nth i script unreachable.
Proof.
  intros Hlen. cbn. rewrite Hlen.
  now replace (served + i - served)%nat with i by lia.
Qed.

Section TableMaterializer.
Context {collaborators : Collaborators}.
Variable runner : PrestoQueryRunner.

(** The select list of nulls that [createTable] builds. *)
Lemma createTable_nulls (columnTypes : list VType) (typeSqls : list string) :
  forEach toTypeSql columnTypes = Ok typeSqls ->
  forEach (fun '(i, child) =>
             typeSql ← toTypeSql child;
             Ok (appendComma i +:+ "cast(null as " +:+ typeSql +:+ ")"))
          (indexed columnTypes) =
  Ok (imap (fun i s => appendComma i +:+ s)
        ((fun typeSql => "cast(null as " +:+ typeSql +:+ ")") <$> typeSqls)).
Proof.
  intros Htypes. apply forEach_Ok_Forall2 in Htypes.
  rewrite (forEach_indexed _
             (fun i (_ : VType) => appendComma i +:+ "cast(null as " +:+
                                   default "" (typeSqls !! i) +:+ ")")).
  - f_equal. apply list_eq. intros i.
    rewrite !list_lookup_imap, list_lookup_fmap.
    destruct (columnTypes !! i) as [child|] eqn:Hchild.
    + destruct (Forall2_lookup_l _ _ _ _ _ Htypes Hchild) as (typeSql & Hsql & _).
      rewrite Hsql. reflexivity.
    + apply Forall2_length in Htypes.
      rewrite (lookup_ge_None_2 typeSqls i); [reflexivity|].
      rewrite <- Htypes. now apply lookup_ge_None_1.
  - intros i child Hchild.
    destruct (Forall2_lookup_l _ _ _ _ _ Htypes Hchild) as (typeSql & Hsql & Hchild').
    rewrite Hchild', Hsql. reflexivity.
Qed.

(** The run of [createTable] against a scripted endpoint. *)
Lemma createTable_runs (fuel : nat) (name : string) (type : VType)
    (typeSqls : list string) (dropped created located deleted : ResponseJson)
    (pages1 pages2 pages3 pages4 : list RowVector) (filePath : string)
    (more : list Response) (t : Trace) :
  kind type = ROW ->
  forEach toTypeSql (children type) = Ok typeSqls ->
  completes dropped pages1 ->
  completes created pages2 ->
  completes located pages3 ->
  completes deleted pages4 ->
  extractSingleValue pages3 = Ok filePath ->
  let environment :=
    scriptedEnvironment (length (requestsOf t))
      ((ok200 <$> [dropped; created; located; deleted]) ++ more) in
  exists t',
    createTable runner (S fuel) name type t = (Ok (parentPath filePath), t') /\
    requestsOf t' =
      requestsOf t ++
      ((fun sql => statementRequest runner sql "") <$>
         createTableStatements name (childNames type) typeSqls).
Proof.
  intros Hkind Htypes Hdropped Hcreated Hlocated Hdeleted Hpath. cbn zeta.
  unfold createTable, mbind, M_mbind. unfold bind at 1, lift at 1, asRowType.
  rewrite Hkind. unfold bind at 1, lift at 1.
  pose proof (createTable_nulls _ _ Htypes) as Hnulls.
  unfold mbind in Hnulls. rewrite Hnulls. clear Hnulls.
  change (String.concat "" (imap (fun i s => appendComma i +:+ s) ?l))
    with (commaSeparated l).
  rewrite commaSeparated_join.
  unfold execute_sql.
  unfold bind at 1.
  erewrite (execute_completes (environment := scriptedEnvironment _ _) runner fuel
              _ "" dropped pages1 t); [|apply scripted_serve with (i := 0%nat); lia|exact Hdropped].
  unfold bind at 1.
  erewrite (execute_completes (environment := scriptedEnvironment _ _) runner fuel
              _ "" created pages2); [| |exact Hcreated].
  2:{ apply scripted_serve with (i := 1%nat).
      rewrite requestsOf_statement, length_app. cbn. lia. }
  unfold bind at 1.
  erewrite (execute_completes (environment := scriptedEnvironment _ _) runner fuel
              _ "" located pages3); [| |exact Hlocated].
  2:{ apply scripted_serve with (i := 2%nat).
      rewrite !requestsOf_statement, !length_app. cbn. lia. }
  unfold bind at 1, lift at 1. rewrite Hpath.
  unfold bind at 1.
  erewrite (execute_completes (environment := scriptedEnvironment _ _) runner fuel
              _ "" deleted pages4); [| |exact Hdeleted].
  2:{ apply scripted_serve with (i := 3%nat).
      rewrite !requestsOf_statement, !length_app. cbn. lia. }
  eexists. split; [reflexivity|].
  rewrite !requestsOf_statement, <- !app_assoc. reflexivity.
Qed.

(** [createTable] against an endpoint that completes each statement at once:
    it runs the four statements in order (drop the table, create it from one
    row of nulls of the column types, ask for the path of its file, delete
    the row) and returns the directory of the path the third one gave. *)
Theorem createTable_statements (fuel : nat) (name : string) (type : VType)
    (typeSqls : list string) (dropped created located deleted : ResponseJson)
    (pages1 pages2 pages3 pages4 : list RowVector) (filePath : string)
    (more : list Response) (t : Trace) :
  kind type = ROW ->
  forEach toTypeSql (children type) = Ok typeSqls ->
  completes dropped pages1 ->
  completes created pages2 ->
  completes located pages3 ->
  completes deleted pages4 ->
  extractSingleValue pages3 = Ok filePath ->
  let environment :=
    scriptedEnvironment (length (requestsOf t))
      ((ok200 <$> [dropped; created; located; deleted]) ++ more) in
  exists t',
    createTable runner (S fuel) name type t = (Ok (parentPath filePath), t') /\
    requestsOf t' =
      requestsOf t ++
      ((fun sql => statementRequest runner sql "") <$>
         createTableStatements name (childNames type) typeSqls).
Proof.
  intros Hkind Htypes Hdropped Hcreated Hlocated Hdeleted Hpath.
  now apply createTable_runs with (pages1 := pages1) (pages2 := pages2)
    (pages3 := pages3) (pages4 := pages4).
Qed.

(** The run of [materializeTable] against a scripted endpoint. *)
Lemma materializeTable_runs (fuel : nat) (tableName : string)
    (first : RowVector) (rest : list RowVector)
    (typeSqls : list string) (dropped created located deleted : ResponseJson)
    (pages1 pages2 pages3 pages4 : list RowVector) (filePath localPath : string)
    (more : list Response) (t : Trace) :
  kind (rvType first) = ROW ->
  forEach toTypeSql (children (rvType first)) = Ok typeSqls ->
  completes dropped pages1 ->
  completes created pages2 ->
  completes located pages3 ->
  completes deleted pages4 ->
  extractSingleValue pages3 = Ok filePath ->
  pathAppend (parentPath filePath) (tableName +:+ ".dwrf") = "file:" +:+ localPath ->
  let environment :=
    scriptedEnvironment (length (requestsOf t))
      ((ok200 <$> [dropped; created; located; deleted]) ++ more) in
  exists t',
    materializeTable runner (S fuel) (tableName, first :: rest) t =
      (Ok tt, t' ++ [WriteFile localPath (first :: rest)]) /\
    requestsOf t' =
      requestsOf t ++
      ((fun sql => statementRequest runner sql "") <$>
         createTableStatements tableName (childNames (rvType first)) typeSqls).
Proof.
  intros Hkind Htypes Hdropped Hcreated Hlocated Hdeleted Hpath Hlocal. cbn zeta.
  destruct (createTable_runs fuel tableName (rvType first) typeSqls
              dropped created located deleted pages1 pages2 pages3 pages4
              filePath more t Hkind Htypes Hdropped Hcreated Hlocated Hdeleted Hpath)
    as (t' & Hcreate & Hrequests).
  exists t'. split; [|exact Hrequests].
  unfold materializeTable, mbind, M_mbind. unfold bind at 1, lift at 1.
  cbn [vectorAt lookup list_lookup]. unfold bind at 1. rewrite Hcreate.
  unfold bind at 1, lift at 1. rewrite Hlocal, substr_file_scheme.
  reflexivity.
Qed.

(** The second loop of [executeAndReturnVector] on one table, against an
    endpoint that completes each statement at once: after the four
    statements of [createTable], the vectors of the table are written to the
    file [<table>.dwrf] of the disclosed directory, at the location without
    its [file:] scheme. *)
Theorem materializeTable_writes_file (fuel : nat) (tableName : string)
    (first : RowVector) (rest : list RowVector)
    (typeSqls : list string) (dropped created located deleted : ResponseJson)
    (pages1 pages2 pages3 pages4 : list RowVector) (filePath localPath : string)
    (more : list Response) (t : Trace) :
  kind (rvType first) = ROW ->
  forEach toTypeSql (children (rvType first)) = Ok typeSqls ->
  completes dropped pages1 ->
  completes created pages2 ->
  completes located pages3 ->
  completes deleted pages4 ->
  extractSingleValue pages3 = Ok filePath ->
  pathAppend (parentPath filePath) (tableName +:+ ".dwrf") = "file:" +:+ localPath ->
  let environment :=
    scriptedEnvironment (length (requestsOf t))
      ((ok200 <$> [dropped; created; located; deleted]) ++ more) in
  exists t',
    materializeTable runner (S fuel) (tableName, first :: rest) t =
      (Ok tt, t' ++ [WriteFile localPath (first :: rest)]) /\
    requestsOf t' =
      requestsOf t ++
      ((fun sql => statementRequest runner sql "") <$>
         createTableStatements tableName (childNames (rvType first)) typeSqls).
Proof.
  intros Hkind Htypes Hdropped Hcreated Hlocated Hdeleted Hpath Hlocal.
  now apply materializeTable_runs with (typeSqls := typeSqls) (pages1 := pages1)
    (pages2 := pages2) (pages3 := pages3) (pages4 := pages4) (filePath := filePath).
Qed.

End TableMaterializer.

Lemma createTable_statements_witness :
  exists t',
    @createTable referenceCollaborators
      (scriptedEnvironment 0
         ((ok200 <$> [exampleDone; exampleDone; examplePath; exampleDone]) ++ []))
      exampleRunner 1 "t_0" exampleRowType [] = (Ok "file:/data/t_0", t') /\
    requestsOf t' =
      requestsOf [] ++
      ((fun sql => statementRequest exampleRunner sql "") <$>
         createTableStatements "t_0" ["c0"] ["BIGINT"]).
Proof.
  apply (@createTable_statements referenceCollaborators exampleRunner 0 "t_0"
           exampleRowType ["BIGINT"] exampleDone exampleDone examplePath exampleDone
           [] [] [mkRowVector (ROW_ [("$path", VARCHAR_)])
                    [[VString "file:/data/t_0/part-0"]]] []
           "file:/data/t_0/part-0" [] []);
    try reflexivity; repeat split; reflexivity.
Defined.

Lemma materializeTable_writes_file_witness :
  exists t',
    @materializeTable referenceCollaborators
      (scriptedEnvironment 0
         ((ok200 <$> [exampleDone; exampleDone; examplePath; exampleDone]) ++ []))
      exampleRunner 1
      ("t_0", [mkRowVector exampleRowType [[VInt 1]; [VInt 2]]]) [] =
      (Ok tt,
       t' ++ [WriteFile "/data/t_0/t_0.dwrf"
                [mkRowVector exampleRowType [[VInt 1]; [VInt 2]]]]) /\
    requestsOf t' =
      requestsOf [] ++
      ((fun sql => statementRequest exampleRunner sql "") <$>
         createTableStatements "t_0" ["c0"] ["BIGINT"]).
Proof.
  apply (@materializeTable_writes_file referenceCollaborators exampleRunner 0 "t_0"
           (mkRowVector exampleRowType [[VInt 1]; [VInt 2]]) []
           ["BIGINT"] exampleDone exampleDone examplePath exampleDone
           [] [] [mkRowVector (ROW_ [("$path", VARCHAR_)])
                    [[VString "file:/data/t_0/part-0"]]] []
           "file:/data/t_0/part-0" "/data/t_0/t_0.dwrf" [] []);
    try reflexivity; repeat split; reflexivity.
Defined.

(* ================================================================= *)
(** ** More on the support predicates *)

(** [containTypeName] finds only names that the signature mentions. *)
Lemma containTypeName_sound (typeName : string) :
  forall type : TypeSignature,
  containTypeName type typeName = true -> mentions typeName type.
Proof.
  fix IH 1. intros [base params] Hfound. cbn in Hfound.
  apply orb_true_iff in Hfound as [Hbase|Hparams].
  - apply mentions_base. now apply String.eqb_eq.
  - assert (Hex : exists p, In p params /\ mentions typeName p).
    { revert params Hparams. fix IHparams 1. intros [|p params] Hparams.
      - discriminate.
      - cbn in Hparams. apply orb_true_iff in Hparams as [Hp|Hrest].
        + exists p. split; [now left|]. apply IH. exact Hp.
        + destruct (IHparams params Hrest) as (q & Hq & Hmentions).
          exists q. split; [now right|exact Hmentions]. }
    destruct Hex as (p & Hp & Hmentions).
    eapply mentions_parameter; eassumption.
Qed.

Lemma usesInputTypeName_sound (typeName : string) (signature : FunctionSignature) :
  usesInputTypeName signature typeName = true -> inputMentions typeName signature.
Proof.
  unfold usesInputTypeName. intros Hfound.
  apply existsb_exists in Hfound as (a & Ha & Hfound).
  exists a. split; [exact Ha|]. now apply containTypeName_sound.
Qed.

Lemma usesTypeName_sound (typeName : string) (signature : FunctionSignature) :
  usesTypeName signature typeName = true ->
  mentions typeName (returnType signature) \/ inputMentions typeName signature.
Proof.
  unfold usesTypeName. intros Hfound.
  apply orb_true_iff in Hfound as [Hret|Hargs].
  - left. now apply containTypeName_sound.
  - right. now apply usesInputTypeName_sound.
Qed.

(** [isSupported] rejects nothing else: a signature that mentions none of
    bingtile, interval year to month, hugeint, hyperloglog and tdigest
    anywhere, and none of json, ipaddress, ipprefix and uuid in an argument
    type, is supported, whatever its return type mentions of the latter
    four. *)
Theorem isSupported_accepts (signature : FunctionSignature) :
  (forall typeName, In typeName namesRejectedAnywhere ->
     ~ mentions typeName (returnType signature) /\
     ~ inputMentions typeName signature) ->
  (forall typeName, In typeName namesRejectedInInputs ->
     ~ inputMentions typeName signature) ->
  isSupported signature = true.
Proof.
  intros Hanywhere Hinputs.
  assert (Huses : forall typeName, In typeName namesRejectedAnywhere ->
                    usesTypeName signature typeName = false).
  { intros typeName Hname.
    destruct (usesTypeName signature typeName) eqn:Huse; [|reflexivity].
    apply usesTypeName_sound in Huse.
    destruct (Hanywhere typeName Hname) as [Hret Hargs]. tauto. }
  assert (Hinput : forall typeName, In typeName namesRejectedInInputs ->
                     usesInputTypeName signature typeName = false).
  { intros typeName Hname.
    destruct (usesInputTypeName signature typeName) eqn:Huse; [|reflexivity].
    apply usesInputTypeName_sound in Huse.
    now destruct (Hinputs typeName Hname). }
  unfold isSupported.
  rewrite !Huses, !Hinput by (cbn; tauto).
  reflexivity.
Qed.

Lemma isSupported_accepts_witness :
  isSupported
    (mkFunctionSignature (mkTypeSignature "json" [])
       [mkTypeSignature "varchar" []]) = true.
Proof.
  apply isSupported_accepts.
  - intros typeName Hname. split.
    + intros Hmentions. apply containTypeName_mentions in Hmentions.
      cbn in Hname.
      destruct Hname as [<- | [<- | [<- | [<- | [<- | []]]]]]; discriminate.
    + intros (a & Ha & Hmentions). apply containTypeName_mentions in Hmentions.
      cbn in Hname, Ha. destruct Ha as [<-|[]].
      destruct Hname as [<- | [<- | [<- | [<- | [<- | []]]]]]; discriminate.
  - intros typeName Hname (a & Ha & Hmentions).
    apply containTypeName_mentions in Hmentions.
    cbn in Hname, Ha. destruct Ha as [<-|[]].
    destruct Hname as [<- | [<- | [<- | [<- | []]]]]; discriminate.
Defined.

(* ================================================================= *)
(** ** Aggregation *)

Lemma join_app_cons (before : list string) (item : string) (after : list string) :
  join ", " (before ++ item :: after) =
  join ", " before +:+ (if nonEmpty before then ", " else "") +:+
  join ", " (item :: after).
Proof.
  induction before as [|x before IH]; [reflexivity|].
  destruct before as [|y before].
  - cbn [app join nonEmpty]. reflexivity.
  - change (join ", " ((x :: y :: before) ++ item :: after))
      with (x +:+ ", " +:+ join ", " ((y :: before) ++ item :: after)).
    rewrite IH. cbn [nonEmpty].
    change (join ", " (x :: y :: before)) with (x +:+ ", " +:+ join ", " (y :: before)).
    now rewrite !append_assoc.
Qed.

Section AggregationShape.
Context {collaborators : Collaborators}.
Variable context : QueryRunnerContext.

(** [toSql(AggregationNode)] for a single-step aggregation over a supported
    input type, with a name per aggregate, whose calls and source compile:
    the SQL selects the grouping keys and then the aggregates (each with the
    filter of its mask and its name), from the source, and groups by the
    grouping keys when there are some. *)
Theorem toSql_aggregation_sql (id : string) (outputType : VType)
    (groupingKeys aggregateNames : list string) (aggregates : list Aggregate)
    (calls : list string) (source : PlanNode) (sourceSql : string) :
  isSupportedDwrfType (outputTypeOf source) = true ->
  Forall2 (fun aggregate callSql =>
             toAggregateCallSql (call aggregate) (aggSortingKeys aggregate)
               (aggSortingOrders aggregate) (distinct aggregate) = Ok callSql)
    aggregates calls ->
  length aggregateNames = length aggregates ->
  toSql context source = Ok (Some sourceSql) ->
  toSql context (AggregationNode id outputType kSingle groupingKeys aggregateNames
                   aggregates source) =
  Ok (Some ("SELECT " +:+
            join ", " (groupingKeys ++ aggregateItems aggregates calls aggregateNames) +:+
            " FROM " +:+ sourceSql +:+
            (if nonEmpty groupingKeys
             then " GROUP BY " +:+ join ", " groupingKeys else ""))).
Proof.
  intros Hgate Hcalls Hnames Hsource.
  pose proof (Forall2_length _ _ _ Hcalls) as Hlen.
  cbn [toSql]. unfold toSqlAggregation. rewrite Hgate, Hsource.
  cbn [Step_eqb VELOX_CHECK negb mbind outcome_mbind outcome_bind].
  assert (Hitems :
    forEach (fun '(i, aggregate) =>
               callSql ← toAggregateCallSql (call aggregate) (aggSortingKeys aggregate)
                           (aggSortingOrders aggregate) (distinct aggregate);
               let filter :=
                 match mask aggregate with
                 | Some m => " filter (where " +:+ m +:+ ")"
                 | None => ""
                 end in
               name ← vectorAt aggregateNames i;
               Ok (appendComma i +:+ callSql +:+ filter +:+ " as " +:+ name))
            (indexed aggregates) =
    Ok (imap (fun i s => appendComma i +:+ s)
          (aggregateItems aggregates calls aggregateNames))).
  { rewrite (forEach_indexed _
               (fun i aggregate => appendComma i +:+
                  aggregateSql aggregate (default "" (calls !! i))
                    (default "" (aggregateNames !! i)))).
    - f_equal. apply list_eq. intros i. unfold aggregateItems.
      rewrite !list_lookup_imap, lookup_zip_with, lookup_zip_with.
      destruct (aggregates !! i) as [aggregate|] eqn:Ha; [|reflexivity].
      destruct (Forall2_lookup_l _ _ _ _ _ Hcalls Ha) as (callSql & Hc & _).
      destruct (lookup_lt_is_Some_2 aggregateNames i) as [name Hn].
      { rewrite Hnames. eapply lookup_lt_Some. exact Ha. }
      rewrite Hc, Hn. reflexivity.
    - intros i aggregate Ha.
      destruct (Forall2_lookup_l _ _ _ _ _ Hcalls Ha) as (callSql & Hc & Hcall).
      destruct (lookup_lt_is_Some_2 aggregateNames i) as [name Hn].
      { rewrite Hnames. eapply lookup_lt_Some. exact Ha. }
      rewrite Hcall. unfold vectorAt. rewrite Hn, Hc. reflexivity. }
  cbv zeta in Hitems. rewrite Hitems. clear Hitems.
  destruct aggregates as [|aggregate aggregates].
  - cbn [nonEmpty mbind outcome_mbind outcome_bind].
    unfold aggregateItems. cbn [zip_with].
    rewrite app_nil_r. reflexivity.
  - destruct calls as [|callSql calls]; [discriminate|].
    destruct aggregateNames as [|name aggregateNames]; [discriminate|].
    cbn [nonEmpty mbind outcome_mbind outcome_bind].
    change (String.concat "" (imap (fun i s => appendComma i +:+ s) ?l))
      with (commaSeparated l).
    rewrite commaSeparated_join.
    unfold aggregateItems. cbn [zip zip_with].
    rewrite join_app_cons.
    now rewrite !append_assoc.
Qed.

End AggregationShape.

Lemma toSql_aggregation_sql_witness :
  @toSql referenceCollaborators exampleContext
    (AggregationNode "3" (ROW_ [("c0", BIGINT_); ("total", BIGINT_)]) kSingle
       ["c0"] ["total"]
       [mkAggregate (CallTypedExpr BIGINT_ "sum" [FieldAccessTypedExpr BIGINT_ "c0" []])
          (Some "m") [] [] false]
       exampleValues) =
  Ok (Some "SELECT c0, sum(c0) filter (where m) as total FROM t_0 GROUP BY c0").
Proof.
  apply (@toSql_aggregation_sql referenceCollaborators exampleContext "3"
           (ROW_ [("c0", BIGINT_); ("total", BIGINT_)]) ["c0"] ["total"]
           [mkAggregate (CallTypedExpr BIGINT_ "sum" [FieldAccessTypedExpr BIGINT_ "c0" []])
              (Some "m") [] [] false]
           ["sum(c0)"] exampleValues "t_0").
  - reflexivity.
  - repeat constructor.
  - reflexivity.
  - reflexivity.
Defined.

(* ================================================================= *)
(** ** One table, end to end *)

Section EndToEnd.
Context {collaborators : Collaborators}.
Variable runner : PrestoQueryRunner.

(** [executeAndReturnVector] on a plan that compiles and reads one table
    with at least one column, against an endpoint that completes each
    statement at once: the table is created and its vectors are written to
    its file before the query is posted; the query is the fifth statement,
    and its pages come back with [kSuccess]. *)
Theorem executeAndReturnVector_one_table (fuel : nat) (plan : PlanNode)
    (sql tableName : string) (first : RowVector) (rest : list RowVector)
    (typeSqls : list string)
    (dropped created located deleted answer : ResponseJson)
    (pages1 pages2 pages3 pages4 pages : list RowVector)
    (filePath localPath : string) (more : list Response) (t : Trace) :
  toSql (context_ runner) plan = Ok (Some sql) ->
  getAllTables plan = Ok [(tableName, first :: rest)] ->
  kind (rvType first) = ROW ->
  children (rvType first) <> [] ->
  forEach toTypeSql (children (rvType first)) = Ok typeSqls ->
  completes dropped pages1 ->
  completes created pages2 ->
  completes located pages3 ->
  completes deleted pages4 ->
  completes answer pages ->
  extractSingleValue pages3 = Ok filePath ->
  pathAppend (parentPath filePath) (tableName +:+ ".dwrf") = "file:" +:+ localPath ->
  let environment :=
    scriptedEnvironment (length (requestsOf t))
      ((ok200 <$> [dropped; created; located; deleted; answer]) ++ more) in
  exists t',
    executeAndReturnVector runner (S fuel) plan t =
      (Ok (Some pages, kSuccess),
       t' ++ WriteFile localPath (first :: rest) ::
             Http (statementRequest runner sql "") ::
             (Decode <$> encodedPages answer)) /\
    requestsOf t' =
      requestsOf t ++
      ((fun statement => statementRequest runner statement "") <$>
         createTableStatements tableName (childNames (rvType first)) typeSqls).
Proof.
  intros Hsql Htables Hkind Hcolumns Htypes Hdropped Hcreated Hlocated Hdeleted
    Hanswer Hpath Hlocal. cbn zeta.
  destruct (materializeTable_runs runner fuel tableName first rest typeSqls
              dropped created located deleted pages1 pages2 pages3 pages4
              filePath localPath ([ok200 answer] ++ more) t
              Hkind Htypes Hdropped Hcreated Hlocated Hdeleted Hpath Hlocal)
    as (t' & Hmaterialize & Hrequests).
  exists t'. split; [|exact Hrequests].
  unfold executeAndReturnVector, mbind, M_mbind. unfold bind at 1, lift at 1.
  rewrite Hsql. unfold tryCatch, runQuery, mbind, M_mbind.
  unfold bind at 1, lift at 1. rewrite Htables.
  unfold bind at 1, lift at 1.
  assert (Hnull : withNullRows (tableName, first :: rest)
                  = Ok (tableName, first :: rest)).
  { unfold withNullRows, asRowType, size. cbn [vectorAt lookup list_lookup].
    cbn [mbind outcome_mbind outcome_bind]. rewrite Hkind.
    cbn [mbind outcome_mbind outcome_bind].
    destruct (children (rvType first)); [contradiction|reflexivity]. }
  cbn [forEach]. rewrite Hnull.
  cbn [forEachM]. unfold mbind, M_mbind. unfold bind at 1. unfold bind at 1.
  replace ((ok200 <$> [dropped; created; located; deleted; answer]) ++ more)
    with ((ok200 <$> [dropped; created; located; deleted]) ++ [ok200 answer] ++ more)
    by reflexivity.
  rewrite Hmaterialize.
  unfold bind, execute_sql, ret. cbv beta iota.
  erewrite (execute_completes (environment := scriptedEnvironment _ _) runner fuel
              sql "" answer pages); [| |exact Hanswer].
  - rewrite <- app_assoc. reflexivity.
  - apply scripted_serve with (i := 4%nat).
    rewrite requestsOf_app, Hrequests, !length_app. cbn. lia.
Qed.

End EndToEnd.

Lemma executeAndReturnVector_one_table_witness :
  exists t',
    @executeAndReturnVector referenceCollaborators
      (scriptedEnvironment 0
         ((ok200 <$> [exampleDone; exampleDone; examplePath; exampleDone; exampleFinal])
          ++ []))
      exampleRunner 1 exampleRowNumber [] =
      (Ok (Some [examplePage "BBB"; examplePage "CCC"], kSuccess),
       t' ++ WriteFile "/data/t_0/t_0.dwrf"
               [mkRowVector exampleRowType [[VInt 1]; [VInt 2]]] ::
             Http (statementRequest exampleRunner
                     "SELECT c0, row_number() OVER (partition by c0) as row_number FROM t_0"
                     "") ::
             (Decode <$> encodedPages exampleFinal)) /\
    requestsOf t' =
      requestsOf [] ++
      ((fun statement => statementRequest exampleRunner statement "") <$>
         createTableStatements "t_0" ["c0"] ["BIGINT"]).
Proof.
  apply (@executeAndReturnVector_one_table referenceCollaborators exampleRunner 0
           exampleRowNumber
           "SELECT c0, row_number() OVER (partition by c0) as row_number FROM t_0"
           "t_0" (mkRowVector exampleRowType [[VInt 1]; [VInt 2]]) []
           ["BIGINT"] exampleDone exampleDone examplePath exampleDone exampleFinal
           [] [] [mkRowVector (ROW_ [("$path", VARCHAR_)])
                    [[VString "file:/data/t_0/part-0"]]] []
           [examplePage "BBB"; examplePage "CCC"]
           "file:/data/t_0/part-0" "/data/t_0/t_0.dwrf" [] []);
    try reflexivity; try discriminate; repeat split; reflexivity.
Defined.

(* ================================================================= *)
(** ** Which exceptions are fatal *)

Section FatalExceptions.
Context {collaborators : Collaborators} {environment : Environment}.
Variable runner : PrestoQueryRunner.

(** [startQuery] on a reply whose status is not 200. *)
Lemma startQuery_failedRequest (sql sessionProperty : string) (t : Trace) :
  let request := statementRequest runner sql sessionProperty in
  let response := serve (requestsOf t) request in
  status_code response <> 200 ->
  startQuery runner sql sessionProperty t =
  (Raise (failedRequest "POST to "
            (coordinatorUri_ runner +:+ "/v1/statement?binaryResults=true") response),
   t ++ [Http request]).
Proof.
  cbn zeta. intros Hstatus.
  unfold startQuery, mbind, M_mbind, bind, http, lift, VELOX_CHECK_EQ,
    statementRequest, failedRequest in *.
  destruct (Z.eqb_spec (status_code (serve (requestsOf t)
    (Post (coordinatorUri_ runner +:+ "/v1/statement?binaryResults=true") sql
       [("X-Presto-User", user_ runner); ("X-Presto-Catalog", "hive");
        ("X-Presto-Schema", "tpch"); ("Content-Type", "text/plain");
        ("X-Presto-Session", sessionProperty)]))) 200) as [Heq|_];
    [contradiction|reflexivity].
Qed.

(** [fetchNext] on a reply whose status is not 200. *)
Lemma fetchNext_failedRequest (uri : string) (t : Trace) :
  let request := Get uri [("X-Presto-Client-Binary-Results", "true")] in
  let response := serve (requestsOf t) request in
  status_code response <> 200 ->
  fetchNext uri t =
  (Raise (failedRequest "GET from " uri response), t ++ [Http request]).
Proof.
  cbn zeta. intros Hstatus.
  unfold fetchNext, mbind, M_mbind, bind, http, lift, VELOX_CHECK_EQ, failedRequest.
  destruct (Z.eqb_spec (status_code (serve (requestsOf t)
    (Get uri [("X-Presto-Client-Binary-Results", "true")]))) 200) as [Heq|_];
    [contradiction|reflexivity].
Qed.


End FatalExceptions.


